(** * alice.py: the initiator side of the ML-KEM key-exchange demo

    A shallow embedding of [src/apps/alice.py] (functions [send_ek_to_bob],
    [wait_for_bob_response] and [main]) and the properties of its handshake
    orchestration and transport framing.

    The program is modelled as a function from a [World] (command line, file
    system, KEM provider, network peers) to the chronological list of the
    effects it performs and the way it ends: a returned value, an unhandled
    exception, or a call that never returns. *)

From Stdlib Require Import ZArith String Ascii List Floats Lia Sorted.
From stdpp Require Import gmap strings list.
From Equations Require Import Equations.

#[local] Set Warnings "-register-all".
#[local] Open Scope Z_scope.

(** ** Python values *)

Abbreviation bytes := (list Byte.byte).

(** What [json.load] can return.  A JSON object is a [dict] with [str] keys. *)
Inductive pyval :=
| PyNone
| PyBool (b : bool)
| PyInt (n : Z)
| PyFloat (f : float)
| PyStr (s : string)
| PyList (l : list pyval)
| PyDict (m : gmap string pyval).

(** The exceptions the program can meet.  [OtherError] stands for any class
    that no [except] clause of the program names. *)
Inductive exn :=
| FileNotFoundError
| ConnectionRefusedError
| ConnectionResetError
| AttributeError
| TypeError
| ValueError
| IndexError
| OtherError (name : string).

#[global] Instance exn_eq_dec : EqDecision exn.
Proof. solve_decision. Defined.

(** How a call ends: it returns, it raises, or it never comes back (a blocking
    socket call on a silent peer; the program sets no timeout). *)
Inductive outcome (A : Type) :=
| Ret (a : A)
| Raise (e : exn)
| Block.
Arguments Ret {A} a.
Arguments Raise {A} e.
Arguments Block {A}.

(** ** Built-ins of the Python runtime used by the program *)

Module Py.

(** [dict.get(key, default)]; any other receiver has no attribute [get]. *)
Definition get (v : pyval) (key : string) (dflt : pyval) : outcome pyval :=
  match v with
  | PyDict m => Ret (default dflt (m !! key))
  | _ => Raise AttributeError
  end.

(** Truth value of an object, as [if connections:] tests it. *)
Definition truthy (v : pyval) : bool :=
  match v with
  | PyNone => false
  | PyBool b => b
  | PyInt n => negb (n =? 0)
  | PyFloat f => negb (PrimFloat.eqb f 0%float)
  | PyStr s => negb (bool_decide (s = EmptyString))
  | PyList l => negb (bool_decide (l = []))
  | PyDict m => negb (bool_decide (m = ∅))
  end.

(** [v < n] for an [int] literal [n]: numbers compare, anything else is a
    [TypeError]. *)
Definition lt_int (v : pyval) (n : Z) : outcome bool :=
  match v with
  | PyInt k => Ret (k <? n)
  | PyBool b => Ret (Z.b2z b <? n)
  | PyFloat f => Ret (PrimFloat.ltb f (PrimFloat.of_uint63 (Uint63.of_Z n)))
  | _ => Raise TypeError
  end.

(** The port of a socket address must be an [int] ([bool] is one). *)
Definition as_port (v : pyval) : outcome Z :=
  match v with
  | PyInt k => Ret k
  | PyBool b => Ret (Z.b2z b)
  | _ => Raise TypeError
  end.

(** [s.split(sep)] for a one-character separator: never the empty list. *)
Fixpoint split (sep : ascii) (s : string) : list string :=
  match s with
  | EmptyString => [EmptyString]
  | String c s' =>
      if Ascii.eqb c sep then EmptyString :: split sep s'
      else match split sep s' with
           | f :: fs => String c f :: fs
           | [] => [String c EmptyString]
           end
  end.

(** [l[i]] *)
Definition index {A} (l : list A) (i : nat) : outcome A :=
  match l !! i with
  | Some x => Ret x
  | None => Raise IndexError
  end.

Definition is_space (c : ascii) : bool :=
  let n := N_of_ascii c in
  ((n =? 32) || ((9 <=? n) && (n <=? 13)))%N.

Definition hex_digit (c : ascii) : option N :=
  let n := N_of_ascii c in
  if ((48 <=? n) && (n <=? 57))%N then Some (n - 48)%N
  else if ((97 <=? n) && (n <=? 102))%N then Some (n - 87)%N
  else if ((65 <=? n) && (n <=? 70))%N then Some (n - 55)%N
  else None.

(** [bytearray.fromhex] on a [str]: two hexadecimal digits per byte, ASCII
    whitespace skipped between bytes; [None] is its [ValueError]. *)
Fixpoint fromhex_str (s : string) : option bytes :=
  match s with
  | EmptyString => Some []
  | String c s' =>
      if is_space c then fromhex_str s'
      else match s' with
           | String c' s'' =>
               match hex_digit c, hex_digit c' with
               | Some hi, Some lo =>
                   match fromhex_str s'' with
                   | Some bs =>
                       Some (byte_of_ascii (ascii_of_N (16 * hi + lo)) :: bs)
                   | None => None
                   end
               | _, _ => None
               end
           | EmptyString => None
           end
  end.

(** [bytearray.fromhex(v)]: the argument must be a [str]. *)
Definition fromhex (v : pyval) : outcome bytes :=
  match v with
  | PyStr s => match fromhex_str s with
               | Some bs => Ret bs
               | None => Raise ValueError
               end
  | _ => Raise TypeError
  end.

End Py.

(** ** Effects *)

Inductive level := DEBUG | WARNING | ERROR.

(** The log lines of [main], one constructor per call of [logger], with the
    values its f-string interpolates. *)
Inductive message :=
| MsgParsingParameters
| MsgStarting
| MsgLoading (param_file : string)
| MsgNoParamFile (param_file : string)
| MsgMissingParameters (param_file : string)
| MsgFixedKeyPair
| MsgNoAddress
| MsgSendingEk (host : string) (port : Z)
| MsgAmount (n : nat)
| MsgSendFailed (host : string) (port : Z)
| MsgNoConnectionSection (param_file : string)
| MsgPortTooLow (port : pyval)
| MsgWaiting
| MsgGotResponse
| MsgSecretObtained
| MsgShouldBe (k : bytes).

Inductive sock := BobSocket | AliceSocket | AliceConn.

Inductive event :=
| EvPrintArgs (params : string) (address : option string)
| EvLog (lvl : level) (msg : message)
| EvOpenFile (path : string)
| EvNewMLKEM
| EvKeyGen (d z : bytes)
| EvConnect (host : string) (port : Z)
| EvSendAll (payload : bytes)
| EvBind (port : Z)
| EvListen
| EvAccept
| EvRecv (bufsize : nat)
| EvClose (s : sock)
| EvDecaps (dk ct : bytes).

(** A computation: the effects performed so far, oldest first, and how it
    ended. *)
Definition prog (A : Type) : Type := (list event * outcome A)%type.

#[global] Instance prog_ret : MRet prog := λ A a, ([], Ret a).

#[global] Instance prog_bind : MBind prog := λ A B f m,
  match m with
  | (tr, Ret a) => let '(tr', o) := f a in (tr ++ tr', o)
  | (tr, Raise e) => (tr, Raise e)
  | (tr, Block) => (tr, Block)
  end.

Definition emit (e : event) : prog unit := ([e], Ret tt).
Definition call {A} (e : event) (r : outcome A) : prog A := ([e], r).
Definition pure {A} (r : outcome A) : prog A := ([], r).
Definition log (lvl : level) (msg : message) : prog unit :=
  emit (EvLog lvl msg).

(** [with s: body]: [s] is closed when the body is left, normally or by an
    exception. *)
Definition with_closing {A} (s : sock) (body : prog A) : prog A :=
  match body with
  | (tr, Block) => (tr, Block)
  | (tr, o) => (tr ++ [EvClose s], o)
  end.

(** [try: body except cls: handler] *)
Definition try_except {A} (body : prog A) (cls : exn) (handler : prog A)
  : prog A :=
  match body with
  | (tr, Raise e) =>
      if decide (e = cls) then let '(tr', o) := handler in (tr ++ tr', o)
      else (tr, Raise e)
  | r => r
  end.

(** ** The environment of a run *)

(** How the peer of an accepted connection goes on once everything it sent
    has been read. *)
Inductive peer_end := PeerCloses | PeerResets | PeerSilent.

(** An accepted connection: the segments still to be read, in arrival order,
    and what the peer does after them. *)
Record conn := { pending : list bytes; ending : peer_end }.

(** [alice_conn.recv(bufsize)]: at most [bufsize] bytes of what has arrived;
    the empty result means the peer has closed. *)
Fixpoint recv_from (bufsize : nat) (chunks : list bytes) (e : peer_end)
  : outcome bytes * conn :=
  match chunks with
  | [] =>
      (match e with
       | PeerCloses => Ret []
       | PeerResets => Raise ConnectionResetError
       | PeerSilent => Block
       end, {| pending := []; ending := e |})
  | [] :: rest => recv_from bufsize rest e
  | (b :: c) :: rest =>
      (Ret (take bufsize (b :: c)),
       {| pending := drop bufsize (b :: c) :: rest; ending := e |})
  end.

Definition recv (c : conn) (bufsize : nat) : outcome bytes * conn :=
  recv_from bufsize (pending c) (ending c).

Record World := {
  (** [args.params] and [args.address] after [parse_args] *)
  args_params : string;
  args_address : option string;
  (** [open(path, "r")] followed by [json.load] *)
  fs_json_load : string -> outcome pyval;
  (** [int(s)] on a [str] *)
  py_int : string -> outcome Z;
  (** the KEM provider, [mlkem.implementation.mlkem.MLKEM] *)
  kem_KeyGen : bytes -> bytes -> outcome (bytes * bytes);
  kem_Decaps : bytes -> bytes -> outcome bytes;
  (** the network as seen from this process *)
  net_connect : string -> Z -> outcome unit;
  net_sendall : string -> Z -> bytes -> outcome unit;
  net_bind : Z -> outcome unit;
  net_accept : Z -> outcome conn;
}.

(** ** The program *)

Definition CIPHER_TEXT_SIZE_IN_BYTES : nat := 768.
#[local] Opaque CIPHER_TEXT_SIZE_IN_BYTES.

(** [send_ek_to_bob], lines 40-49. *)
Definition send_ek_to_bob (w : World) (address : string) (port : Z) (ek : bytes)
  : prog bool :=
  try_except
    (with_closing BobSocket
       (call (EvConnect address port) (net_connect w address port) ;;
        call (EvSendAll ek) (net_sendall w address port ek)) ;;
     mret true)
    ConnectionRefusedError
    (mret false).

(** The [while] loop of [wait_for_bob_response], lines 60-64. *)
Equations? recv_loop (c : conn) (cipher_text : bytes) : prog bytes
  by wf (CIPHER_TEXT_SIZE_IN_BYTES - length cipher_text)%nat lt :=
recv_loop c cipher_text
  with lt_dec (length cipher_text) CIPHER_TEXT_SIZE_IN_BYTES := {
  | right _ := mret cipher_text
  | left _
      with recv c (CIPHER_TEXT_SIZE_IN_BYTES - length cipher_text)%nat := {
      | (Ret [], _) :=
          ([EvRecv (CIPHER_TEXT_SIZE_IN_BYTES - length cipher_text)%nat],
           Ret cipher_text)
      | (Ret (b :: data), c') :=
          let '(tr, o) := recv_loop c' (cipher_text ++ b :: data) in
          (EvRecv (CIPHER_TEXT_SIZE_IN_BYTES - length cipher_text)%nat :: tr, o)
      | (Raise e, _) :=
          ([EvRecv (CIPHER_TEXT_SIZE_IN_BYTES - length cipher_text)%nat],
           Raise e)
      | (Block, _) :=
          ([EvRecv (CIPHER_TEXT_SIZE_IN_BYTES - length cipher_text)%nat],
           Block) } }.
Proof. rewrite length_app. simpl. lia. Qed.

(** [wait_for_bob_response], lines 52-66. *)
Definition wait_for_bob_response (w : World) (port : pyval) : prog bytes :=
  with_closing AliceSocket
    (p ← pure (Py.as_port port);
     call (EvBind p) (net_bind w p) ;;
     emit EvListen ;;
     alice_conn ← call EvAccept (net_accept w p);
     with_closing AliceConn (recv_loop alice_conn [])).

Definition is_none (v : pyval) : bool :=
  match v with PyNone => true | _ => false end.

(** [main], lines 69-137.  A [return] from inside the [except] clause is
    the [None] of [loaded]. *)
Definition main (w : World) : prog Z :=
  log DEBUG MsgParsingParameters ;;
  emit (EvPrintArgs (args_params w) (args_address w)) ;;
  let param_file := args_params w in
  log DEBUG MsgStarting ;;
  log DEBUG (MsgLoading param_file) ;;
  loaded ← try_except
    (params ← call (EvOpenFile param_file) (fs_json_load w param_file);
     mret (Some params))
    FileNotFoundError
    (log ERROR (MsgNoParamFile param_file) ;; mret None);
  match loaded with
  | None => mret 1
  | Some params =>
      emit EvNewMLKEM ;;
      d ← pure (Py.get params "d" PyNone);
      z ← pure (Py.get params "z" PyNone);
      if is_none d || is_none z then
        log ERROR (MsgMissingParameters param_file) ;; mret 1
      else
        d ← pure (Py.fromhex d);
        z ← pure (Py.fromhex z);
        log WARNING MsgFixedKeyPair ;;
        '(ek, dk) ← call (EvKeyGen d z) (kem_KeyGen w d z);
        match args_address w with
        | None => log ERROR MsgNoAddress ;; mret 1
        | Some bob_address_full =>
            bob_address ← pure (Py.index (Py.split ":" bob_address_full) 0);
            bob_port ← pure (Py.index (Py.split ":" bob_address_full) 1);
            bob_port ← pure (py_int w bob_port);
            log DEBUG (MsgSendingEk bob_address bob_port) ;;
            log DEBUG (MsgAmount (length ek)) ;;
            sent ← send_ek_to_bob w bob_address bob_port ek;
            if negb sent then
              log ERROR (MsgSendFailed bob_address bob_port) ;; mret 1
            else
              connections ← pure (Py.get params "connections" PyNone);
              if Py.truthy connections then
                listen_port ← pure (Py.get connections "port" (PyInt 0));
                low ← pure (Py.lt_int listen_port 1024);
                if low : bool then
                  log ERROR (MsgPortTooLow listen_port) ;; mret 1
                else
                  log DEBUG MsgWaiting ;;
                  ciphered_text ← wait_for_bob_response w listen_port;
                  log DEBUG MsgGotResponse ;;
                  alice_k ← call (EvDecaps dk ciphered_text)
                                 (kem_Decaps w dk ciphered_text);
                  log DEBUG MsgSecretObtained ;;
                  log DEBUG (MsgShouldBe alice_k) ;;
                  mret 0
              else
                log ERROR (MsgNoConnectionSection param_file) ;; mret 1
        end
  end.

(** [sys.exit(main())]: the status the process ends with, if it ends.  An
    unhandled exception ends the interpreter with status 1. *)
Definition exit_status (o : outcome Z) : option Z :=
  match o with
  | Ret code => Some code
  | Raise _ => Some 1
  | Block => None
  end.

(** ** Stages and runs of the orchestrator *)

(** Everything the peer still has to deliver on a connection. *)
Definition stream (c : conn) : bytes := concat (pending c).

(** A call that does not return passes its exception, or its silence, on to
    its caller. *)
Inductive stops {A B : Type} : outcome A → outcome B → Prop :=
| stops_raise e : stops (Raise e) (Raise e)
| stops_block : stops Block Block.

Section Orchestration.
Variable w : World.

(** [params.get(key, None)] on the loaded record. *)
Definition field (m : gmap string pyval) (key : string) : pyval :=
  default PyNone (m !! key).

(** The conditions under which [main] gets from one stage to the next. *)
Definition params_loaded (m : gmap string pyval) : Prop :=
  fs_json_load w (args_params w) = Ret (PyDict m).

Definition seeds_decoded (m : gmap string pyval) (d z : bytes) : Prop :=
  Py.fromhex (field m "d") = Ret d ∧ Py.fromhex (field m "z") = Ret z.

Definition key_generated (m : gmap string pyval) (d z ek dk : bytes) : Prop :=
  params_loaded m ∧ seeds_decoded m d z ∧ kem_KeyGen w d z = Ret (ek, dk).

Definition peer_parsed (host : string) (port : Z) : Prop :=
  ∃ a p rest, args_address w = Some a
    ∧ Py.split ":" a = host :: p :: rest ∧ py_int w p = Ret port.

Definition ek_sent (m : gmap string pyval) (d z ek dk : bytes)
    (host : string) (port : Z) : Prop :=
  key_generated m d z ek dk ∧ peer_parsed host port
  ∧ net_connect w host port = Ret tt ∧ net_sendall w host port ek = Ret tt.

(** The record has a non-empty [connections] object, and
    [connections.get("port", 0)] is [v]. *)
Definition listen_port (m : gmap string pyval) (v : pyval) : Prop :=
  ∃ c, m !! "connections" = Some (PyDict c) ∧ c ≠ ∅
    ∧ default (PyInt 0) (c !! "port") = v.

(** The effects performed on the way to each stage. *)
Definition trace_init : list event :=
  [EvLog DEBUG MsgParsingParameters;
   EvPrintArgs (args_params w) (args_address w);
   EvLog DEBUG MsgStarting;
   EvLog DEBUG (MsgLoading (args_params w));
   EvOpenFile (args_params w)].

Definition trace_params : list event := trace_init ++ [EvNewMLKEM].

Definition trace_keygen (d z : bytes) : list event :=
  trace_params ++ [EvLog WARNING MsgFixedKeyPair; EvKeyGen d z].

Definition trace_connect (d z : bytes) (host : string) (port : Z) (ek : bytes)
  : list event :=
  trace_keygen d z ++
  [EvLog DEBUG (MsgSendingEk host port); EvLog DEBUG (MsgAmount (length ek));
   EvConnect host port].

Definition trace_sendall (d z : bytes) (host : string) (port : Z) (ek : bytes)
  : list event :=
  trace_connect d z host port ek ++ [EvSendAll ek].

Definition trace_sent (d z : bytes) (host : string) (port : Z) (ek : bytes)
  : list event :=
  trace_sendall d z host port ek ++ [EvClose BobSocket].

Definition trace_waiting (d z : bytes) (host : string) (port : Z) (ek : bytes)
  : list event :=
  trace_sent d z host port ek ++ [EvLog DEBUG MsgWaiting].

(** The runs of [main], path by path: the effects and the way it ends. *)
Inductive run : list event → outcome Z → Prop :=
| run_config_not_found :
    fs_json_load w (args_params w) = Raise FileNotFoundError →
    run (trace_init ++ [EvLog ERROR (MsgNoParamFile (args_params w))]) (Ret 1)
| run_load_stops o :
    stops (fs_json_load w (args_params w)) o →
    o ≠ Raise FileNotFoundError →
    run trace_init o
| run_not_a_dict v :
    fs_json_load w (args_params w) = Ret v → (∀ m, v ≠ PyDict m) →
    run trace_params (Raise AttributeError)
| run_missing_seed m :
    params_loaded m →
    is_none (field m "d") || is_none (field m "z") = true →
    run (trace_params ++ [EvLog ERROR (MsgMissingParameters (args_params w))])
        (Ret 1)
| run_bad_seed_d m e :
    params_loaded m →
    is_none (field m "d") || is_none (field m "z") = false →
    Py.fromhex (field m "d") = Raise e →
    run trace_params (Raise e)
| run_bad_seed_z m d e :
    params_loaded m →
    is_none (field m "d") || is_none (field m "z") = false →
    Py.fromhex (field m "d") = Ret d →
    Py.fromhex (field m "z") = Raise e →
    run trace_params (Raise e)
| run_keygen_stops m d z o :
    params_loaded m → seeds_decoded m d z → stops (kem_KeyGen w d z) o →
    run (trace_keygen d z) o
| run_no_peer_address m d z ek dk :
    key_generated m d z ek dk → args_address w = None →
    run (trace_keygen d z ++ [EvLog ERROR MsgNoAddress]) (Ret 1)
| run_no_colon m d z ek dk a :
    key_generated m d z ek dk → args_address w = Some a →
    Py.split ":" a !! 1%nat = None →
    run (trace_keygen d z) (Raise IndexError)
| run_port_not_parsed m d z ek dk a host p rest o :
    key_generated m d z ek dk → args_address w = Some a →
    Py.split ":" a = host :: p :: rest → stops (py_int w p) o →
    run (trace_keygen d z) o
| run_connect_refused m d z ek dk host port :
    key_generated m d z ek dk → peer_parsed host port →
    net_connect w host port = Raise ConnectionRefusedError →
    run (trace_connect d z host port ek
         ++ [EvClose BobSocket; EvLog ERROR (MsgSendFailed host port)])
        (Ret 1)
| run_connect_raises m d z ek dk host port e :
    key_generated m d z ek dk → peer_parsed host port →
    net_connect w host port = Raise e → e ≠ ConnectionRefusedError →
    run (trace_connect d z host port ek ++ [EvClose BobSocket]) (Raise e)
| run_connect_blocks m d z ek dk host port :
    key_generated m d z ek dk → peer_parsed host port →
    net_connect w host port = Block →
    run (trace_connect d z host port ek) Block
| run_sendall_refused m d z ek dk host port :
    key_generated m d z ek dk → peer_parsed host port →
    net_connect w host port = Ret tt →
    net_sendall w host port ek = Raise ConnectionRefusedError →
    run (trace_sendall d z host port ek
         ++ [EvClose BobSocket; EvLog ERROR (MsgSendFailed host port)])
        (Ret 1)
| run_sendall_raises m d z ek dk host port e :
    key_generated m d z ek dk → peer_parsed host port →
    net_connect w host port = Ret tt →
    net_sendall w host port ek = Raise e → e ≠ ConnectionRefusedError →
    run (trace_sendall d z host port ek ++ [EvClose BobSocket]) (Raise e)
| run_sendall_blocks m d z ek dk host port :
    key_generated m d z ek dk → peer_parsed host port →
    net_connect w host port = Ret tt →
    net_sendall w host port ek = Block →
    run (trace_sendall d z host port ek) Block
| run_no_listen_config m d z ek dk host port :
    ek_sent m d z ek dk host port →
    Py.truthy (field m "connections") = false →
    run (trace_sent d z host port ek
         ++ [EvLog ERROR (MsgNoConnectionSection (args_params w))])
        (Ret 1)
| run_connections_not_a_dict m d z ek dk host port :
    ek_sent m d z ek dk host port →
    Py.truthy (field m "connections") = true →
    (∀ c, field m "connections" ≠ PyDict c) →
    run (trace_sent d z host port ek) (Raise AttributeError)
| run_port_not_a_number m d z ek dk host port v e :
    ek_sent m d z ek dk host port → listen_port m v →
    Py.lt_int v 1024 = Raise e →
    run (trace_sent d z host port ek) (Raise e)
| run_port_too_low m d z ek dk host port v :
    ek_sent m d z ek dk host port → listen_port m v →
    Py.lt_int v 1024 = Ret true →
    run (trace_sent d z host port ek ++ [EvLog ERROR (MsgPortTooLow v)])
        (Ret 1)
| run_receive_stops m d z ek dk host port v trw o o' :
    ek_sent m d z ek dk host port → listen_port m v →
    Py.lt_int v 1024 = Ret false →
    wait_for_bob_response w v = (trw, o) → stops o o' →
    run (trace_waiting d z host port ek ++ trw) o'
| run_decaps_stops m d z ek dk host port v trw ct o :
    ek_sent m d z ek dk host port → listen_port m v →
    Py.lt_int v 1024 = Ret false →
    wait_for_bob_response w v = (trw, Ret ct) →
    stops (kem_Decaps w dk ct) o →
    run (trace_waiting d z host port ek ++ trw
         ++ [EvLog DEBUG MsgGotResponse; EvDecaps dk ct]) o
| run_done m d z ek dk host port v trw ct k :
    ek_sent m d z ek dk host port → listen_port m v →
    Py.lt_int v 1024 = Ret false →
    wait_for_bob_response w v = (trw, Ret ct) →
    kem_Decaps w dk ct = Ret k →
    run (trace_waiting d z host port ek ++ trw
         ++ [EvLog DEBUG MsgGotResponse; EvDecaps dk ct;
             EvLog DEBUG MsgSecretObtained; EvLog DEBUG (MsgShouldBe k)])
        (Ret 0).

End Orchestration.

(** ** What a run lets an observer see *)

Definition keygen_call (e : event) : option (bytes * bytes) :=
  match e with EvKeyGen d z => Some (d, z) | _ => None end.
Definition connection (e : event) : option (string * Z) :=
  match e with EvConnect host port => Some (host, port) | _ => None end.
Definition socket_write (e : event) : option bytes :=
  match e with EvSendAll payload => Some payload | _ => None end.
Definition bound_port (e : event) : option Z :=
  match e with EvBind port => Some port | _ => None end.
Definition accept_call (e : event) : option unit :=
  match e with EvAccept => Some tt | _ => None end.
Definition decaps_call (e : event) : option (bytes * bytes) :=
  match e with EvDecaps dk ct => Some (dk, ct) | _ => None end.
Definition file_opened (e : event) : option string :=
  match e with EvOpenFile path => Some path | _ => None end.
Definition error_log (e : event) : option message :=
  match e with EvLog ERROR msg => Some msg | _ => None end.

(** What [f] picks out of a run, in order. *)
Fixpoint observe {A} (f : event → option A) (tr : list event) : list A :=
  match tr with
  | [] => []
  | e :: tr' =>
      match f e with
      | Some a => a :: observe f tr'
      | None => observe f tr'
      end
  end.

(** The calls of each kind made during a run. *)
Definition keygen_calls : list event → list (bytes * bytes) :=
  observe keygen_call.
Definition connections_opened : list event → list (string * Z) :=
  observe connection.
Definition socket_writes : list event → list bytes := observe socket_write.
Definition bound_ports : list event → list Z := observe bound_port.
Definition accept_calls : list event → list unit := observe accept_call.
Definition decaps_calls : list event → list (bytes * bytes) :=
  observe decaps_call.
Definition files_opened : list event → list string := observe file_opened.
Definition error_logs : list event → list message := observe error_log.

(** What a run shows on the network. *)
Definition network (tr : list event)
  : list (string * Z) * list bytes * list Z :=
  (connections_opened tr, socket_writes tr, bound_ports tr).

(** The world in which the provider hands out [f dk] where it handed out
    [dk]: everything else is as in [w]. *)
Definition with_dk (f : bytes → bytes) (w : World) : World :=
  {| args_params := args_params w;
     args_address := args_address w;
     fs_json_load := fs_json_load w;
     py_int := py_int w;
     kem_KeyGen := λ d z,
       match kem_KeyGen w d z with
       | Ret (ek, dk) => Ret (ek, f dk)
       | Raise e => Raise e
       | Block => Block
       end;
     kem_Decaps := kem_Decaps w;
     net_connect := net_connect w;
     net_sendall := net_sendall w;
     net_bind := net_bind w;
     net_accept := net_accept w |}.

(** A run up to its first call of Decaps, and from that call on. *)
Fixpoint until_decaps (tr : list event) : list event :=
  match tr with
  | [] => []
  | EvDecaps _ _ :: _ => []
  | e :: tr' => e :: until_decaps tr'
  end.

Fixpoint from_decaps (tr : list event) : list event :=
  match tr with
  | [] => []
  | EvDecaps dk ct :: tr' => EvDecaps dk ct :: tr'
  | _ :: tr' => from_decaps tr'
  end.

(** What [main] logs once Decaps has been called, lines 134-135: nothing
    unless the call returns. *)
Definition secret_logged (r : outcome bytes) : list event :=
  match r with
  | Ret k => [EvLog DEBUG MsgSecretObtained; EvLog DEBUG (MsgShouldBe k)]
  | _ => []
  end.

(** The effects of the Inbound Receiver. *)
Definition receiver_event (e : event) : bool :=
  match e with
  | EvBind _ | EvListen | EvAccept | EvRecv _
  | EvClose AliceSocket | EvClose AliceConn => true
  | _ => false
  end.

(** [a] happens, and later [b]. *)
Definition before (a b : event) (tr : list event) : Prop :=
  ∃ l1 l2 l3, tr = l1 ++ a :: l2 ++ b :: l3.

(** The failures the program reports, and the log line that names each. *)
Inductive failure :=
| ConfigNotFound
| MissingSeed
| MissingListenConfig
| InvalidPort
| NoPeerAddress
| SendFailed.

Definition reason (msg : message) : option failure :=
  match msg with
  | MsgNoParamFile _ => Some ConfigNotFound
  | MsgMissingParameters _ => Some MissingSeed
  | MsgNoConnectionSection _ => Some MissingListenConfig
  | MsgPortTooLow _ => Some InvalidPort
  | MsgNoAddress => Some NoPeerAddress
  | MsgSendFailed _ _ => Some SendFailed
  | _ => None
  end.

(** The run is given up for [f]: [main] returns 1, and the one line it logs
    at ERROR, the last thing it does, names [f]. *)
Definition aborts (f : failure) (r : prog Z) : Prop :=
  r.2 = Ret 1
  ∧ ∃ msg, last r.1 = Some (EvLog ERROR msg)
      ∧ error_logs r.1 = [msg] ∧ reason msg = Some f.

(** [c] occurs in [s]. *)
Fixpoint contains (c : ascii) (s : string) : bool :=
  match s with
  | EmptyString => false
  | String c' s' => Ascii.eqb c' c || contains c s'
  end.

(** ** Concrete worlds, for running the program *)

Module Demo.

Fixpoint digits (s : string) (acc : Z) : option Z :=
  match s with
  | EmptyString => Some acc
  | String c s' =>
      let n := Z.of_N (N_of_ascii c) in
      if (48 <=? n) && (n <=? 57) then digits s' (10 * acc + (n - 48))
      else None
  end.

(** [int] on plain decimal numerals. *)
Definition int (s : string) : outcome Z :=
  match s with
  | EmptyString => Raise ValueError
  | _ => match digits s 0 with
         | Some n => Ret n
         | None => Raise ValueError
         end
  end.

(** A stand-in for the KEM provider. *)
Definition KeyGen (d z : bytes) : outcome (bytes * bytes) :=
  Ret (d ++ z, z ++ d).
Definition Decaps (dk ct : bytes) : outcome bytes :=
  Ret (take 32 (dk ++ ct)).

Definition record (d z : string) (connections : pyval) : gmap string pyval :=
  <["d" := PyStr d]> (<["z" := PyStr z]>
    (<["connections" := connections]> ∅)).

Definition section (port : Z) : gmap string pyval :=
  <["port" := PyInt port]> ∅.

Definition ciphertext : bytes := repeat Byte.x2a 768.

(** Bob answers in two segments and closes. *)
Definition full_reply : conn :=
  {| pending := [take 500 ciphertext; drop 500 ciphertext];
     ending := PeerCloses |}.

(** Bob sends three bytes and closes. *)
Definition short_reply : conn :=
  {| pending := [[Byte.x01; Byte.x02]; [Byte.x03]]; ending := PeerCloses |}.

(** Bob sends more than asked for and keeps the connection open. *)
Definition long_reply : conn :=
  {| pending := [[Byte.x01]; ciphertext; [Byte.x02; Byte.x03]];
     ending := PeerSilent |}.

(** Bob listens, takes the key, and answers with [answer]. *)
Definition world (params : outcome pyval) (address : option string)
    (answer : conn) : World :=
  {| args_params := "alice_params.json";
     args_address := address;
     fs_json_load := λ _, params;
     py_int := int;
     kem_KeyGen := KeyGen;
     kem_Decaps := Decaps;
     net_connect := λ _ _, Ret tt;
     net_sendall := λ _ _ _, Ret tt;
     net_bind := λ _, Ret tt;
     net_accept := λ _, Ret answer |}.

(** The same world with nobody listening at Bob's address. *)
Definition unreachable (w : World) : World :=
  {| args_params := args_params w;
     args_address := args_address w;
     fs_json_load := fs_json_load w;
     py_int := py_int w;
     kem_KeyGen := kem_KeyGen w;
     kem_Decaps := kem_Decaps w;
     net_connect := λ _ _, Raise ConnectionRefusedError;
     net_sendall := net_sendall w;
     net_bind := net_bind w;
     net_accept := net_accept w |}.

Definition bob : option string := Some "127.0.0.1:6000".

Definition configured (connections : pyval) : World :=
  world (Ret (PyDict (record "0011" "2233" connections))) bob full_reply.

Definition good : World := configured (PyDict (section 5000)).
Definition short : World :=
  world (Ret (PyDict (record "0011" "2233" (PyDict (section 5000)))))
        bob short_reply.
Definition long : World :=
  world (Ret (PyDict (record "0011" "2233" (PyDict (section 5000)))))
        bob long_reply.
Definition refused : World := unreachable good.
Definition low_port : World := configured (PyDict (section 80)).
Definition empty_section : World := configured (PyDict ∅).
Definition no_port : World :=
  configured (PyDict (<["host" := PyStr "localhost"]> ∅)).
Definition no_section : World := configured PyNone.
Definition no_file : World :=
  world (Raise FileNotFoundError) bob full_reply.
Definition no_seed : World :=
  world (Ret (PyDict (<["z" := PyStr "2233"]> ∅))) bob full_reply.
Definition bad_hex : World :=
  world (Ret (PyDict (record "zz" "2233" (PyDict (section 5000)))))
        bob full_reply.
Definition no_address : World :=
  world (Ret (PyDict (record "0011" "2233" (PyDict (section 5000)))))
        None full_reply.
Definition no_colon : World :=
  world (Ret (PyDict (record "0011" "2233" (PyDict (section 5000)))))
        (Some "localhost") full_reply.

(** What the stand-in provider makes of the seeds ["0011"] and ["2233"]. *)
Definition d : bytes := [Byte.x00; Byte.x11].
Definition z : bytes := [Byte.x22; Byte.x33].
Definition ek : bytes := d ++ z.
Definition dk : bytes := z ++ d.

End Demo.

(** ** More to observe: sockets closed, reads, and the runs of the receiver *)

Definition socket_closed (e : event) : option sock :=
  match e with EvClose s => Some s | _ => None end.
Definition read_request (e : event) : option nat :=
  match e with EvRecv n => Some n | _ => None end.
Definition sockets_closed : list event → list sock := observe socket_closed.
Definition read_requests : list event → list nat := observe read_request.

(** What the receive loop makes of a connection when it starts with [buf]:
    the closed form of [recv_loop]. *)
Definition expected_read (buf : bytes) (c : conn) : outcome bytes :=
  if decide (CIPHER_TEXT_SIZE_IN_BYTES ≤ length buf + length (stream c))%nat
  then Ret (take CIPHER_TEXT_SIZE_IN_BYTES (buf ++ stream c))
  else match ending c with
       | PeerCloses => Ret (buf ++ stream c)
       | PeerResets => Raise ConnectionResetError
       | PeerSilent => Block
       end.

(** The runs of [wait_for_bob_response], by the call they end in. *)
Inductive receives (w : World) (port : pyval)
  : list event → outcome bytes → Prop :=
| receives_bad_port e :
    Py.as_port port = Raise e →
    receives w port [EvClose AliceSocket] (Raise e)
| receives_bind_raises p e :
    Py.as_port port = Ret p → net_bind w p = Raise e →
    receives w port [EvBind p; EvClose AliceSocket] (Raise e)
| receives_bind_blocks p :
    Py.as_port port = Ret p → net_bind w p = Block →
    receives w port [EvBind p] Block
| receives_accept_raises p e :
    Py.as_port port = Ret p → net_bind w p = Ret tt →
    net_accept w p = Raise e →
    receives w port [EvBind p; EvListen; EvAccept; EvClose AliceSocket]
      (Raise e)
| receives_accept_blocks p :
    Py.as_port port = Ret p → net_bind w p = Ret tt →
    net_accept w p = Block →
    receives w port [EvBind p; EvListen; EvAccept] Block
| receives_read_blocks p c reads :
    Py.as_port port = Ret p → net_bind w p = Ret tt →
    net_accept w p = Ret c → recv_loop c [] = (reads, Block) →
    receives w port ([EvBind p; EvListen; EvAccept] ++ reads) Block
| receives_read_ends p c reads o :
    Py.as_port port = Ret p → net_bind w p = Ret tt →
    net_accept w p = Ret c → recv_loop c [] = (reads, o) → o ≠ Block →
    receives w port
      ([EvBind p; EvListen; EvAccept] ++ reads
       ++ [EvClose AliceConn; EvClose AliceSocket]) o.

(** ** More worlds: peers and files that misbehave *)

Module Edge.

(** Bob sends three bytes and then nothing, keeping the connection open. *)
Definition silent_reply : conn :=
  {| pending := [[Byte.x01; Byte.x02]; [Byte.x03]]; ending := PeerSilent |}.

(** Bob sends three bytes and his end of the connection is reset. *)
Definition reset_reply : conn :=
  {| pending := [[Byte.x01; Byte.x02]; [Byte.x03]]; ending := PeerResets |}.

(** The three bytes of [Demo.short_reply] in one segment. *)
Definition joined_reply : conn :=
  {| pending := [[Byte.x01; Byte.x02; Byte.x03]]; ending := PeerCloses |}.

(** The world [w] on another network. *)
Definition on_network (connect sendall bind : outcome unit)
    (accept : outcome conn) (w : World) : World :=
  {| args_params := args_params w;
     args_address := args_address w;
     fs_json_load := fs_json_load w;
     py_int := py_int w;
     kem_KeyGen := kem_KeyGen w;
     kem_Decaps := kem_Decaps w;
     net_connect := λ _ _, connect;
     net_sendall := λ _ _ _, sendall;
     net_bind := λ _, bind;
     net_accept := λ _, accept |}.

Definition answering (answer : outcome conn) : World :=
  on_network (Ret tt) (Ret tt) (Ret tt) answer Demo.good.

Definition silent : World := answering (Ret silent_reply).
Definition reset : World := answering (Ret reset_reply).
Definition joined : World := answering (Ret joined_reply).
Definition nobody_calls : World := answering Block.

(** The listen port is taken by another process. *)
Definition port_in_use : World :=
  on_network (Ret tt) (Ret tt) (Raise (OtherError "OSError")) Block Demo.good.


(** The parameter file is not JSON, or is JSON but no object. *)
Definition not_json : World :=
  Demo.world (Raise (OtherError "JSONDecodeError")) Demo.bob Demo.full_reply.
Definition json_list : World :=
  Demo.world (Ret (PyList [PyStr "0011"; PyStr "2233"])) Demo.bob
    Demo.full_reply.

(** The listen port is written as a string, and the section as a list. *)
Definition string_port : gmap string pyval := <["port" := PyStr "5000"]> ∅.
Definition port_as_string : World := Demo.configured (PyDict string_port).
Definition section_as_list : World :=
  Demo.configured (PyList [PyInt 5000]).

(** The port of Bob's address is no number. *)
Definition named_port : World :=
  Demo.world (Ret (PyDict (Demo.record "0011" "2233"
                             (PyDict (Demo.section 5000)))))
    (Some "127.0.0.1:kem") Demo.full_reply.

End Edge.

(** * Properties *)

(** ** The built-ins *)

Lemma fromhex_not_none v bs : Py.fromhex v = Ret bs → is_none v = false.
Proof. by destruct v. Qed.

Lemma fromhex_not_block v : Py.fromhex v ≠ Block.
Proof. destruct v; simpl; try done. by case_match. Qed.

Lemma fromhex_raises v e :
  Py.fromhex v = Raise e → e = ValueError ∨ e = TypeError.
Proof.
  destruct v; simpl; try (intros [= <-]; by right).
  case_match; [done|]. intros [= <-]. by left.
Qed.

Lemma lt_int_not_block v n : Py.lt_int v n ≠ Block.
Proof. by destruct v. Qed.

Lemma is_none_false v : v ≠ PyNone ↔ is_none v = false.
Proof. destruct v; simpl; split; done. Qed.

Lemma truthy_dict c : c ≠ ∅ → Py.truthy (PyDict c) = true.
Proof. intros Hc. simpl. by rewrite bool_decide_eq_false_2. Qed.

Lemma split_nonempty sep s : Py.split sep s ≠ [].
Proof. destruct s; simpl; repeat case_match; done. Qed.

Lemma split_no_separator sep s :
  contains sep s = false → Py.split sep s = [s].
Proof.
  induction s as [|c s IH]; simpl; [done|].
  intros [Hc Hs]%orb_false_elim. rewrite Hc, (IH Hs). done.
Qed.

Lemma stops_inv {A B} (x : outcome A) (o : outcome B) :
  stops x o → (∃ e, x = Raise e ∧ o = Raise e) ∨ (x = Block ∧ o = Block).
Proof. intros []; eauto. Qed.

Lemma field_connections m c :
  m !! "connections" = Some (PyDict c) → field m "connections" = PyDict c.
Proof. intros H. unfold field. by rewrite H. Qed.

Lemma cipher_text_size : CIPHER_TEXT_SIZE_IN_BYTES = 768%nat.
Proof. reflexivity. Qed.

(** ** The receive loop *)

Section ReceiveLoop.
#[local] Open Scope nat_scope.

Lemma recv_from_spec n chunks e :
  0 < n →
  match recv_from n chunks e with
  | (Ret [], c') => concat chunks = [] ∧ e = PeerCloses
  | (Ret data, c') =>
      length data ≤ n ∧ concat chunks = data ++ stream c' ∧ ending c' = e
  | (Raise x, c') => concat chunks = [] ∧ e = PeerResets
  | (Block, c') => concat chunks = [] ∧ e = PeerSilent
  end.
Proof.
  intros Hn. induction chunks as [|[|b c] rest IH]; simpl.
  - destruct e; simpl; auto.
  - exact IH.
  - destruct n as [|n]; [lia|]. simpl. unfold stream. simpl.
    rewrite length_take. split; [lia|]. split; [|done].
    rewrite (app_assoc (take n c)), take_drop. done.
Qed.

Lemma recv_data c n b data c' :
  0 < n → recv c n = (Ret (b :: data), c') →
  length (b :: data) ≤ n ∧ stream c = (b :: data) ++ stream c'
  ∧ ending c' = ending c.
Proof.
  intros Hn Heq. pose proof (recv_from_spec n (pending c) (ending c) Hn) as Hs.
  unfold recv in Heq. rewrite Heq in Hs. exact Hs.
Qed.

Lemma recv_eof c n c' :
  0 < n → recv c n = (Ret [], c') → stream c = [] ∧ ending c = PeerCloses.
Proof.
  intros Hn Heq. pose proof (recv_from_spec n (pending c) (ending c) Hn) as Hs.
  unfold recv in Heq. rewrite Heq in Hs. exact Hs.
Qed.

Lemma recv_fails c n o c' :
  0 < n → recv c n = (o, c') → (∀ data, o ≠ Ret data) →
  stream c = [] ∧ ending c ≠ PeerCloses.
Proof.
  intros Hn Heq Ho. pose proof (recv_from_spec n (pending c) (ending c) Hn) as Hs.
  unfold recv in Heq. rewrite Heq in Hs.
  destruct o as [data|x|]; [by destruct (Ho data)| |];
    unfold stream; destruct Hs as [-> ->]; done.
Qed.

(** The loop returns the first [CIPHER_TEXT_SIZE_IN_BYTES] bytes of what it
    holds and what the peer delivers, as soon as the peer closes after its
    last byte or delivers enough. *)
Lemma recv_loop_result c buf :
  length buf ≤ CIPHER_TEXT_SIZE_IN_BYTES →
  ending c = PeerCloses
    ∨ CIPHER_TEXT_SIZE_IN_BYTES ≤ length buf + length (stream c) →
  (recv_loop c buf).2 = Ret (take CIPHER_TEXT_SIZE_IN_BYTES (buf ++ stream c)).
Proof.
  funelim (recv_loop c buf); intros Hlen Hpeer; clear Heqcall.
  - simpl. f_equal. symmetry. apply take_app_length'. lia.
  - apply recv_eof in Heq as [-> _]; [|lia].
    simpl. rewrite app_nil_r, take_ge; done.
  - apply recv_data in Heq as (Hd & Hs & He); [|lia].
    rewrite Hs, app_assoc.
    destruct (recv_loop c' (cipher_text ++ b :: data)) as [tr o] eqn:Hrec.
    simpl in *. apply H.
    + rewrite length_app. simpl. lia.
    + rewrite He. destruct Hpeer as [?|Hge]; [by left|right].
      rewrite Hs in Hge. simpl in Hge. rewrite !length_app in *.
      simpl in *. lia.
  - apply recv_fails in Heq as [Hs He]; [|lia|done].
    rewrite Hs in Hpeer. simpl in Hpeer. destruct Hpeer; [done|lia].
  - apply recv_fails in Heq as [Hs He]; [|lia|done].
    rewrite Hs in Hpeer. simpl in Hpeer. destruct Hpeer; [done|lia].
Qed.

(** Whatever the peer does, the buffer never grows past the fixed size. *)
Lemma recv_loop_length c buf tr out :
  length buf ≤ CIPHER_TEXT_SIZE_IN_BYTES →
  recv_loop c buf = (tr, Ret out) →
  length out ≤ CIPHER_TEXT_SIZE_IN_BYTES.
Proof.
  revert tr out. funelim (recv_loop c buf); intros tr out Hlen Hrun;
    clear Heqcall.
  - by inversion Hrun; subst.
  - by inversion Hrun; subst.
  - apply recv_data in Heq as (Hd & _ & _); [|lia].
    destruct (recv_loop c' (cipher_text ++ b :: data)) as [tr' o] eqn:Hrec.
    inversion Hrun; subst. eapply H; [|reflexivity].
    rewrite length_app. simpl in *. lia.
  - inversion Hrun.
  - inversion Hrun.
Qed.

(** Each read asks for exactly the bytes still missing, and at least one. *)
Lemma recv_loop_requests c buf n :
  EvRecv n ∈ (recv_loop c buf).1 →
  1 ≤ n ≤ CIPHER_TEXT_SIZE_IN_BYTES - length buf.
Proof.
  funelim (recv_loop c buf); clear Heqcall; simpl.
  - intros Hin. by apply elem_of_nil in Hin.
  - intros Hin. apply list_elem_of_singleton in Hin. inversion Hin. lia.
  - destruct (recv_loop c' (cipher_text ++ b :: data)) as [tr' o] eqn:Hrec.
    simpl in *. intros Hin. apply elem_of_cons in Hin as [Heq'|Hin].
    + inversion Heq'. lia.
    + apply H in Hin. rewrite length_app in Hin. simpl in Hin. lia.
  - intros Hin. apply list_elem_of_singleton in Hin. inversion Hin. lia.
  - intros Hin. apply list_elem_of_singleton in Hin. inversion Hin. lia.
Qed.

(** The loop does nothing but read. *)
Lemma recv_loop_only_reads c buf e :
  e ∈ (recv_loop c buf).1 → ∃ n, e = EvRecv n.
Proof.
  funelim (recv_loop c buf); clear Heqcall; simpl.
  - intros Hin. by apply elem_of_nil in Hin.
  - intros Hin. apply list_elem_of_singleton in Hin. eauto.
  - destruct (recv_loop c' (cipher_text ++ b :: data)) as [tr' o] eqn:Hrec.
    simpl in *. intros Hin. apply elem_of_cons in Hin as [Heq'|Hin]; eauto.
  - intros Hin. apply list_elem_of_singleton in Hin. eauto.
  - intros Hin. apply list_elem_of_singleton in Hin. eauto.
Qed.

Lemma recv_loop_receiver_events c buf :
  Forall (λ e, receiver_event e = true) (recv_loop c buf).1.
Proof.
  apply Forall_forall. intros e He.
  apply recv_loop_only_reads in He as [n ->]. done.
Qed.

End ReceiveLoop.

(** ** The Inbound Receiver *)

Section InboundReceiver.
Variable w : World.

(** Once a peer is connected, the receiver ends the way its loop ends. *)
Lemma wait_outcome p c :
  net_bind w p = Ret tt → net_accept w p = Ret c →
  (wait_for_bob_response w (PyInt p)).2 = (recv_loop c []).2.
Proof.
  intros Hb Ha. unfold wait_for_bob_response, call, pure, emit. simpl.
  rewrite Hb. simpl. rewrite Ha. simpl.
  destruct (recv_loop c []) as [tr [buf|e|]]; reflexivity.
Qed.

Lemma wait_receiver_events port :
  Forall (λ e, receiver_event e = true) (wait_for_bob_response w port).1.
Proof.
  unfold wait_for_bob_response, call, pure, emit.
  destruct (Py.as_port port) as [p|e|]; simpl;
    [|by repeat constructor..].
  destruct (net_bind w p) as [[]|e|]; simpl; [|by repeat constructor..].
  destruct (net_accept w p) as [c|e|]; simpl; [|by repeat constructor..].
  pose proof (recv_loop_receiver_events c []) as Hloop.
  destruct (recv_loop c []) as [tr [buf|e|]]; simpl in *;
    repeat (apply Forall_cons; split; [done|]);
    rewrite ?Forall_app; repeat split; try done; by repeat constructor.
Qed.

Lemma observe_app {A} (f : event → option A) tr1 tr2 :
  observe f (tr1 ++ tr2) = observe f tr1 ++ observe f tr2.
Proof.
  induction tr1 as [|e tr1 IH]; [done|].
  simpl. destruct (f e); simpl; by rewrite IH.
Qed.

(** An observer that ignores the receiver's effects sees nothing of it. *)
Lemma wait_unobserved {A} (f : event → option A) port :
  (∀ e, receiver_event e = true → f e = None) →
  observe f (wait_for_bob_response w port).1 = [].
Proof.
  intros Hf. pose proof (wait_receiver_events port) as Hall.
  induction Hall as [|e tr He _ IH]; [done|].
  simpl. by rewrite (Hf e He).
Qed.

Lemma recv_loop_unobserved {A} (f : event → option A) c buf :
  (∀ n, f (EvRecv n) = None) → observe f (recv_loop c buf).1 = [].
Proof.
  intros Hf.
  assert (Forall (λ e, ∃ n, e = EvRecv n) (recv_loop c buf).1) as Hall.
  { apply Forall_forall. intros e. apply recv_loop_only_reads. }
  induction Hall as [|e tr [n ->] _ IH]; [done|].
  simpl. by rewrite Hf.
Qed.

(** The receiver binds and accepts at most once. *)
Lemma wait_binds_once port :
  (length (bound_ports (wait_for_bob_response w port).1) ≤ 1)%nat
  ∧ (length (accept_calls (wait_for_bob_response w port).1) ≤ 1)%nat.
Proof.
  unfold wait_for_bob_response, call, pure, emit, bound_ports, accept_calls.
  destruct (Py.as_port port) as [p|e|]; simpl; [|split; lia..].
  destruct (net_bind w p) as [[]|e|]; simpl; [|split; lia..].
  destruct (net_accept w p) as [c|e|]; simpl; [|split; lia..].
  pose proof (recv_loop_unobserved bound_port c [] (λ _, eq_refl)) as Hb.
  pose proof (recv_loop_unobserved accept_call c [] (λ _, eq_refl)) as Ha.
  destruct (recv_loop c []) as [tr [buf|e|]]; simpl in *;
    rewrite ?observe_app, ?Hb, ?Ha; simpl; split; lia.
Qed.

(** What the receiver returns is what its loop returned on some accepted
    connection, started with an empty buffer. *)
Lemma wait_returns_loop port tr buf :
  wait_for_bob_response w port = (tr, Ret buf) →
  ∃ c tr', recv_loop c [] = (tr', Ret buf).
Proof.
  unfold wait_for_bob_response, call, pure, emit.
  destruct (Py.as_port port) as [p|e|]; simpl; [|done..].
  destruct (net_bind w p) as [[]|e|]; simpl; [|done..].
  destruct (net_accept w p) as [c|e|]; simpl; [|done..].
  destruct (recv_loop c []) as [tr' [buf'|e|]] eqn:Hloop; simpl; [|done..].
  intros [= _ ->]. eauto.
Qed.

Lemma wait_with_dk f port :
  wait_for_bob_response (with_dk f w) port = wait_for_bob_response w port.
Proof. reflexivity. Qed.

End InboundReceiver.


(** ** Transport framing: the fixed-length read *)

(** C2: when the peer of the accepted connection sends n < 768 bytes and then
    closes, [wait_for_bob_response] returns exactly those n bytes: it neither
    raises nor blocks. *)
Theorem short_read_is_returned w p c :
  net_bind w p = Ret tt → net_accept w p = Ret c →
  ending c = PeerCloses → (length (stream c) < 768)%nat →
  (wait_for_bob_response w (PyInt p)).2 = Ret (stream c).
Proof.
  intros Hb Ha He Hlen. rewrite (wait_outcome w p c Hb Ha).
  rewrite recv_loop_result; [|simpl; lia|by left].
  simpl. f_equal. apply take_ge. rewrite cipher_text_size. lia.
Qed.

(** C3: when the accepted connection delivers at least 768 bytes,
    [wait_for_bob_response] returns exactly the first 768 of them; whatever the
    peer does the returned buffer is never longer than 768 bytes, since every
    read asks for at least one byte and for no more than are still missing. *)
Theorem full_read_is_the_first_768_bytes :
  (∀ w p c,
      net_bind w p = Ret tt → net_accept w p = Ret c →
      (768 ≤ length (stream c))%nat →
      (wait_for_bob_response w (PyInt p)).2 = Ret (take 768 (stream c)))
  ∧ (∀ w port tr buf,
      wait_for_bob_response w port = (tr, Ret buf) → (length buf ≤ 768)%nat)
  ∧ (∀ c buf n,
      EvRecv n ∈ (recv_loop c buf).1 → (1 ≤ n ≤ 768 - length buf)%nat).
Proof.
  rewrite <- cipher_text_size. split; [|split].
  - intros w p c Hb Ha Hlen. rewrite (wait_outcome w p c Hb Ha).
    rewrite recv_loop_result; [done|simpl; lia|right; simpl; lia].
  - intros w port tr buf Hrun.
    apply wait_returns_loop in Hrun as (c & tr' & Hloop).
    eapply recv_loop_length; [|exact Hloop]. simpl. lia.
  - intros c buf n. apply recv_loop_requests.
Qed.

(** ** The runs of the orchestrator *)

#[local] Opaque wait_for_bob_response.

(** Every run of [main] follows one of the paths of [run]. *)
Lemma main_run w : run w (main w).1 (main w).2.
Proof.
  unfold main, try_except, call, pure, log, emit. simpl.
  destruct (fs_json_load w (args_params w)) as [v|e|] eqn:Hload; simpl.
  2: { destruct (decide (e = FileNotFoundError)) as [->|Hne]; simpl.
       - by apply run_config_not_found.
       - apply run_load_stops; [rewrite Hload; constructor | congruence]. }
  2: { apply run_load_stops; [rewrite Hload; constructor|done]. }
  destruct v as [| | | | | |m]; simpl; try (by eapply run_not_a_dict).
  fold (field m "d") (field m "z").
  destruct (is_none (field m "d") || is_none (field m "z")) eqn:Hnone; simpl.
  { by eapply run_missing_seed. }
  destruct (Py.fromhex (field m "d")) as [d|e|] eqn:Hd; simpl;
    [|by eapply run_bad_seed_d|by destruct (fromhex_not_block _ Hd)].
  destruct (Py.fromhex (field m "z")) as [z|e|] eqn:Hz; simpl;
    [|by eapply run_bad_seed_z|by destruct (fromhex_not_block _ Hz)].
  destruct (kem_KeyGen w d z) as [[ek dk]|e|] eqn:Hk; simpl;
    [|eapply run_keygen_stops; [done|done|rewrite Hk; constructor]..].
  assert (key_generated w m d z ek dk) as Hkg by done.
  destruct (args_address w) as [a|] eqn:Ha; simpl; rewrite <- Ha;
    [|by eapply run_no_peer_address].
  destruct (Py.split ":" a) as [|host [|p rest]] eqn:Hsplit; simpl.
  { by destruct a; simpl in Hsplit; repeat case_match. }
  { eapply run_no_colon; [done|done|by rewrite Hsplit]. }
  destruct (py_int w p) as [port|e|] eqn:Hp; simpl;
    [|eapply run_port_not_parsed;
      [done|done|done|rewrite Hp; constructor]..].
  assert (peer_parsed w host port) as Hpeer by (by exists a, p, rest).
  unfold send_ek_to_bob, try_except, with_closing, call. simpl.
  destruct (net_connect w host port) as [[]|e|] eqn:Hc; simpl.
  2: { destruct (decide (e = ConnectionRefusedError)) as [->|Hne]; simpl.
       - by eapply run_connect_refused.
       - by eapply run_connect_raises. }
  2: { by eapply run_connect_blocks. }
  destruct (net_sendall w host port ek) as [[]|e|] eqn:Hs; simpl.
  2: { destruct (decide (e = ConnectionRefusedError)) as [->|Hne]; simpl.
       - by eapply run_sendall_refused.
       - by eapply run_sendall_raises. }
  2: { by eapply run_sendall_blocks. }
  assert (ek_sent w m d z ek dk host port) as Hsent by done.
  fold (field m "connections").
  destruct (Py.truthy (field m "connections")) eqn:Htruthy; simpl;
    [|by eapply run_no_listen_config].
  destruct (field m "connections") as [| | | | | |c] eqn:Hconn; simpl;
    try (eapply run_connections_not_a_dict;
         [done|by rewrite Hconn|by rewrite Hconn]).
  set (v := default (PyInt 0) (c !! "port")).
  assert (listen_port m v) as Hlisten.
  { exists c. unfold field in Hconn.
    destruct (m !! "connections") eqn:Hm; simplify_eq/=.
    split; [done|]. split; [|done].
    intros ->. by rewrite bool_decide_eq_true_2 in Htruthy. }
  destruct (Py.lt_int v 1024) as [[]|e|] eqn:Hlow; simpl;
    [by eapply run_port_too_low
    |
    |by eapply run_port_not_a_number
    |by destruct (lt_int_not_block _ _ Hlow)].
  destruct (wait_for_bob_response w v) as [trw [ct|e|]] eqn:Hwait; simpl;
    [|eapply run_receive_stops; [done|done|done|done|constructor]..].
  destruct (kem_Decaps w dk ct) as [k|e|] eqn:Hdec; simpl;
    [|eapply run_decaps_stops;
      [done|done|done|done|rewrite Hdec; constructor]..].
  by eapply run_done.
Qed.

Ltac use_hyps :=
  repeat match goal with
         | H : ?l = _ |- context [?l] => rewrite H
         end.
Ltac run_program := repeat (first [progress use_hyps | progress simpl]).

Ltac open_stage :=
  repeat match goal with
         | H : ek_sent _ _ _ _ _ _ _ _ |- _ => destruct H as (? & ? & ? & ?)
         | H : key_generated _ _ _ _ _ _ |- _ => destruct H as (? & ? & ?)
         | H : seeds_decoded _ _ _ |- _ => destruct H as [? ?]
         | H : peer_parsed _ _ _ |- _ => destruct H as (? & ? & ? & ? & ? & ?)
         | H : listen_port _ _ |- _ => destruct H as (? & ? & ? & ?)
         | H : params_loaded _ _ |- _ => unfold params_loaded in H
         | H : stops _ _ |- _ =>
             apply stops_inv in H as [(? & ? & ->)|[? ->]]
         | H : Py.fromhex ?v = Ret _ |- _ =>
             lazymatch goal with
             | _ : is_none v = false |- _ => fail
             | _ => pose proof (fromhex_not_none _ _ H)
             end
         | H : ?m !! "connections" = Some (PyDict ?c) |- _ =>
             lazymatch goal with
             | _ : field m "connections" = PyDict c |- _ => fail
             | _ => pose proof (field_connections _ _ H)
             end
         | H : ?c ≠ ∅ |- _ =>
             lazymatch goal with
             | _ : Py.truthy (PyDict c) = true |- _ => fail
             | _ => pose proof (truthy_dict _ H)
             end
         end.

Ltac not_a_dict :=
  match goal with
  | H : ∀ m, ?v ≠ PyDict m |- _ =>
      let c := fresh "c" in
      destruct v as [| | | | | |c] eqn:?; [..|by destruct (H c)]; clear H
  end.

Ltac no_colon :=
  match goal with
  | H : Py.split ":" ?a !! 1%nat = None |- _ =>
      let Hs := fresh "Hsplit" in
      destruct (Py.split ":" a) as [|? [|? ?]] eqn:Hs;
      [by destruct (split_nonempty _ _ Hs) | clear H | discriminate H]
  end.

(** Each path of [run] is what [main] does under the conditions of the
    path. *)
Lemma run_main w tr o : run w tr o → main w = (tr, o).
Proof.
  intros Hrun.
  destruct Hrun; open_stage; try not_a_dict; try no_colon;
    unfold main, send_ek_to_bob, try_except, with_closing, call, pure, log,
      emit, field, trace_waiting, trace_sent, trace_sendall, trace_connect,
      trace_keygen, trace_params, trace_init in *;
    run_program; try (case_decide; [by subst|]); try done; try reflexivity.
Qed.

(** ** Observing the runs of [main] *)

Lemma receiver_trace w v trw o :
  wait_for_bob_response w v = (trw, o) →
  observe keygen_call trw = [] ∧ observe connection trw = []
  ∧ observe socket_write trw = [] ∧ observe decaps_call trw = []
  ∧ observe file_opened trw = [] ∧ observe error_log trw = []
  ∧ (length (observe bound_port trw) ≤ 1)%nat
  ∧ (length (observe accept_call trw) ≤ 1)%nat.
Proof.
  intros Hwait.
  assert (∀ {A} (f : event → option A),
             (∀ e, receiver_event e = true → f e = None) →
             observe f trw = []) as Hquiet.
  { intros A f Hf. pose proof (wait_unobserved w f v Hf) as H.
    by rewrite Hwait in H. }
  pose proof (wait_binds_once w v) as [Hb Ha].
  unfold bound_ports, accept_calls in *. rewrite Hwait in Hb, Ha.
  repeat split; try done; apply Hquiet;
    intros [] He; simpl in *; try done; by repeat case_match.
Qed.

(** The observers of a run, evaluated on the trace of one of its paths. *)
Ltac observers :=
  unfold keygen_calls, connections_opened, socket_writes, bound_ports,
    accept_calls, decaps_calls, files_opened, error_logs,
    trace_waiting, trace_sent, trace_sendall, trace_connect, trace_keygen,
    trace_params, trace_init in *.

Ltac receiver :=
  try match goal with
      | H : wait_for_bob_response _ _ = (_, _) |- _ =>
          let Hk := fresh in let Hc := fresh in let Hs := fresh in
          let Hd := fresh in let Hf := fresh in let He := fresh in
          let Hb := fresh in let Ha := fresh in
          pose proof (receiver_trace _ _ _ _ H)
            as (Hk & Hc & Hs & Hd & Hf & He & Hb & Ha);
          simpl; rewrite ?observe_app, ?Hk, ?Hc, ?Hs, ?Hd, ?Hf, ?He
      end.

(** Every run of [main], with its trace and outcome named. *)
Ltac runs_of w :=
  let Hrun := fresh "Hrun" in
  let tr := fresh "tr" in
  let o := fresh "o" in
  pose proof (main_run w) as Hrun;
  destruct (main w) as [tr o]; simpl in Hrun |- *; destruct Hrun.

Lemma main_acts_once w :
  (length (files_opened (main w).1) ≤ 1)%nat
  ∧ (length (keygen_calls (main w).1) ≤ 1)%nat
  ∧ (length (connections_opened (main w).1) ≤ 1)%nat
  ∧ (length (socket_writes (main w).1) ≤ 1)%nat
  ∧ (length (bound_ports (main w).1) ≤ 1)%nat
  ∧ (length (accept_calls (main w).1) ≤ 1)%nat
  ∧ (length (decaps_calls (main w).1) ≤ 1)%nat
  ∧ (length (error_logs (main w).1) ≤ 1)%nat.
Proof.
  runs_of w; observers; receiver; simpl; rewrite ?length_app; simpl;
    repeat split; lia.
Qed.

Lemma send_ek_false w host port ek :
  (send_ek_to_bob w host port ek).2 = Ret false ↔
  net_connect w host port = Raise ConnectionRefusedError
  ∨ (net_connect w host port = Ret tt
     ∧ net_sendall w host port ek = Raise ConnectionRefusedError).
Proof.
  unfold send_ek_to_bob, try_except, with_closing, call. simpl.
  destruct (net_connect w host port) as [[]|e|]; simpl.
  - destruct (net_sendall w host port ek) as [[]|e|]; simpl.
    + split; [done|]. by intros [|[_ ?]].
    + destruct (decide (e = ConnectionRefusedError)) as [->|Hne]; simpl.
      * split; [by right|done].
      * split; [done|]. intros [|[_ ?]]; [done|congruence].
    + split; [done|]. by intros [|[_ ?]].
  - destruct (decide (e = ConnectionRefusedError)) as [->|Hne]; simpl.
    + split; [by left|done].
    + split; [done|]. intros [|[? _]]; [congruence|done].
  - split; [done|]. by intros [|[? _]].
Qed.

(** A run that logs one line at ERROR, last of all, and returns 1. *)
Ltac aborting :=
  observers; receiver;
  split; [reflexivity|];
  eexists; split; [reflexivity|]; split; reflexivity.

Section Aborts.
Variable w : World.

Lemma abort_config_not_found :
  fs_json_load w (args_params w) = Raise FileNotFoundError →
  aborts ConfigNotFound (main w).
Proof.
  intros H. rewrite (run_main w _ _ (run_config_not_found w H)). aborting.
Qed.

Lemma abort_missing_seed m :
  params_loaded w m → field m "d" = PyNone ∨ field m "z" = PyNone →
  aborts MissingSeed (main w).
Proof.
  intros Hl Hnone.
  assert (is_none (field m "d") || is_none (field m "z") = true) as H.
  { destruct Hnone as [-> | ->]; simpl; [done|]. apply orb_true_r. }
  rewrite (run_main w _ _ (run_missing_seed w m Hl H)). aborting.
Qed.

Lemma abort_no_peer_address m d z ek dk :
  key_generated w m d z ek dk → args_address w = None →
  aborts NoPeerAddress (main w).
Proof.
  intros Hk Ha.
  rewrite (run_main w _ _ (run_no_peer_address w m d z ek dk Hk Ha)).
  aborting.
Qed.

Lemma abort_send_failed m d z ek dk host port :
  key_generated w m d z ek dk → peer_parsed w host port →
  (send_ek_to_bob w host port ek).2 = Ret false →
  aborts SendFailed (main w).
Proof.
  intros Hk Hp [Hc|[Hc Hs]]%send_ek_false.
  - rewrite (run_main w _ _
               (run_connect_refused w m d z ek dk host port Hk Hp Hc)).
    aborting.
  - rewrite (run_main w _ _
               (run_sendall_refused w m d z ek dk host port Hk Hp Hc Hs)).
    aborting.
Qed.

Lemma abort_no_listen_config m d z ek dk host port :
  ek_sent w m d z ek dk host port →
  Py.truthy (field m "connections") = false →
  aborts MissingListenConfig (main w).
Proof.
  intros Hs Ht.
  rewrite (run_main w _ _
             (run_no_listen_config w m d z ek dk host port Hs Ht)).
  aborting.
Qed.

Lemma abort_port_too_low m d z ek dk host port v :
  ek_sent w m d z ek dk host port → listen_port m v →
  Py.lt_int v 1024 = Ret true →
  aborts InvalidPort (main w)
  ∧ main w = (trace_sent w d z host port ek
              ++ [EvLog ERROR (MsgPortTooLow v)], Ret 1).
Proof.
  intros Hs Hl Hlow.
  rewrite (run_main w _ _
             (run_port_too_low w m d z ek dk host port v Hs Hl Hlow)).
  split; [aborting|done].
Qed.

Lemma main_done m d z ek dk host port v ct k :
  ek_sent w m d z ek dk host port → listen_port m v →
  Py.lt_int v 1024 = Ret false →
  (wait_for_bob_response w v).2 = Ret ct →
  kem_Decaps w dk ct = Ret k →
  (main w).2 = Ret 0 ∧ error_logs (main w).1 = []
  ∧ last (main w).1 = Some (EvLog DEBUG (MsgShouldBe k)).
Proof.
  intros Hs Hl Hlow Hw Hd.
  destruct (wait_for_bob_response w v) as [trw o] eqn:Hwait.
  simpl in Hw. subst o.
  rewrite (run_main w _ _
             (run_done w m d z ek dk host port v trw ct k
                Hs Hl Hlow Hwait Hd)).
  split; [done|]. split.
  - observers; receiver. reflexivity.
  - cbn [fst]. by rewrite !last_app.
Qed.

(** Whenever [main] returns, it returns 0 after the whole handshake or 1
    after logging why it gave up. *)
Lemma main_returns code :
  (main w).2 = Ret code →
  code = 0 ∧ error_logs (main w).1 = []
  ∨ code = 1 ∧ ∃ f, aborts f (main w).
Proof.
  runs_of w; intros Hret;
    repeat match goal with
      | H : stops _ _ |- _ => destruct H
      end;
    try discriminate Hret;
    injection Hret as <-;
    first [ left; split; [done|]; observers; receiver; reflexivity
          | right; split; [done|]; eexists; aborting ].
Qed.

Lemma aborts_for_one_reason f f' :
  aborts f (main w) → aborts f' (main w) → f = f'.
Proof.
  intros (_ & msg & _ & Hlog & Hf) (_ & msg' & _ & Hlog' & Hf').
  rewrite Hlog in Hlog'. injection Hlog' as <-. congruence.
Qed.

End Aborts.

(** ** Exit statuses *)

(** C4: the process ends with status 0 after the whole handshake, and with
    status 1 after each failure the program checks for: configuration file
    not found, missing seeds, missing listen configuration, missing or too low
    listen port, missing peer address, refused send.  Each of them is logged
    once, at ERROR, with a line of its own, as the last thing the program
    does; nothing is tried twice. *)
Theorem exit_status_of_every_outcome (w : World) :
  (∀ m d z ek dk host port v ct k,
      ek_sent w m d z ek dk host port → listen_port m v →
      Py.lt_int v 1024 = Ret false →
      (wait_for_bob_response w v).2 = Ret ct → kem_Decaps w dk ct = Ret k →
      exit_status (main w).2 = Some 0 ∧ error_logs (main w).1 = [])
  ∧ (fs_json_load w (args_params w) = Raise FileNotFoundError →
     aborts ConfigNotFound (main w))
  ∧ (∀ m, params_loaded w m →
          field m "d" = PyNone ∨ field m "z" = PyNone →
          aborts MissingSeed (main w))
  ∧ (∀ m d z ek dk host port,
        ek_sent w m d z ek dk host port →
        Py.truthy (field m "connections") = false →
        aborts MissingListenConfig (main w))
  ∧ (∀ m d z ek dk host port v,
        ek_sent w m d z ek dk host port → listen_port m v →
        Py.lt_int v 1024 = Ret true →
        aborts InvalidPort (main w))
  ∧ (∀ m d z ek dk,
        key_generated w m d z ek dk → args_address w = None →
        aborts NoPeerAddress (main w))
  ∧ (∀ m d z ek dk host port,
        key_generated w m d z ek dk → peer_parsed w host port →
        (send_ek_to_bob w host port ek).2 = Ret false →
        aborts SendFailed (main w))
  ∧ (∀ f, aborts f (main w) → exit_status (main w).2 = Some 1)
  ∧ (∀ f f', aborts f (main w) → aborts f' (main w) → f = f')
  ∧ (∀ code, (main w).2 = Ret code →
        code = 0 ∧ error_logs (main w).1 = []
        ∨ code = 1 ∧ ∃ f, aborts f (main w))
  ∧ ((length (files_opened (main w).1) ≤ 1)%nat
     ∧ (length (keygen_calls (main w).1) ≤ 1)%nat
     ∧ (length (connections_opened (main w).1) ≤ 1)%nat
     ∧ (length (socket_writes (main w).1) ≤ 1)%nat
     ∧ (length (bound_ports (main w).1) ≤ 1)%nat
     ∧ (length (accept_calls (main w).1) ≤ 1)%nat
     ∧ (length (decaps_calls (main w).1) ≤ 1)%nat
     ∧ (length (error_logs (main w).1) ≤ 1)%nat).
Proof.
  repeat apply conj.
  - intros * Hs Hl Hlow Hw Hd.
    destruct (main_done w _ _ _ _ _ _ _ _ _ _ Hs Hl Hlow Hw Hd)
      as (Hret & Hlog & _).
    by rewrite Hret.
  - apply abort_config_not_found.
  - apply abort_missing_seed.
  - apply abort_no_listen_config.
  - intros * Hs Hl Hlow.
    by destruct (abort_port_too_low w _ _ _ _ _ _ _ _ Hs Hl Hlow).
  - apply abort_no_peer_address.
  - apply abort_send_failed.
  - intros f [Hret _]. by rewrite Hret.
  - apply aborts_for_one_reason.
  - apply main_returns.
  - apply main_acts_once.
  - apply main_acts_once.
  - apply main_acts_once.
  - apply main_acts_once.
  - apply main_acts_once.
  - apply main_acts_once.
  - apply main_acts_once.
  - apply main_acts_once.
Qed.

(** ** The order of the handshake *)

Lemma key_generated_fun w m d z ek dk m' d' z' ek' dk' :
  key_generated w m d z ek dk → key_generated w m' d' z' ek' dk' →
  m = m' ∧ d = d' ∧ z = z' ∧ ek = ek' ∧ dk = dk'.
Proof.
  intros (Hl & [Hd Hz] & Hk) (Hl' & [Hd' Hz'] & Hk').
  unfold params_loaded in *. rewrite Hl in Hl'. injection Hl' as <-.
  rewrite Hd in Hd'. injection Hd' as <-.
  rewrite Hz in Hz'. injection Hz' as <-.
  rewrite Hk in Hk'. by injection Hk' as <- <-.
Qed.

Lemma peer_parsed_fun w host port host' port' :
  peer_parsed w host port → peer_parsed w host' port' →
  host = host' ∧ port = port'.
Proof.
  intros (a & p & rest & Ha & Hs & Hp) (a' & p' & rest' & Ha' & Hs' & Hp').
  rewrite Ha in Ha'. injection Ha' as <-.
  rewrite Hs in Hs'. injection Hs' as <- <- <-.
  rewrite Hp in Hp'. by injection Hp' as <-.
Qed.

Lemma before_intro {A} (a b : A) l1 l2 l3 tr :
  tr = l1 ++ a :: l2 ++ b :: l3 → ∃ l1 l2 l3, tr = l1 ++ a :: l2 ++ b :: l3.
Proof. eauto. Qed.

(** C1, as the code has it: a listen port below 1024 is rejected, with the
    port error and exit status 1, only once the seeds are decoded, KeyGen has
    returned and the encapsulation key has been sent to the peer.  The check
    comes after KeyGen and after the outbound connection, and before any
    listening socket is bound and before Decaps. *)
Theorem low_port_is_rejected_after_the_send
    w m d z ek dk host port c v :
  ek_sent w m d z ek dk host port →
  m !! "connections" = Some (PyDict c) → c !! "port" = Some v →
  Py.lt_int v 1024 = Ret true →
  aborts InvalidPort (main w)
  ∧ last (main w).1 = Some (EvLog ERROR (MsgPortTooLow v))
  ∧ before (EvKeyGen d z) (EvConnect host port) (main w).1
  ∧ before (EvConnect host port) (EvSendAll ek) (main w).1
  ∧ before (EvSendAll ek) (EvLog ERROR (MsgPortTooLow v)) (main w).1
  ∧ bound_ports (main w).1 = [] ∧ accept_calls (main w).1 = []
  ∧ decaps_calls (main w).1 = [].
Proof.
  intros Hs Hc Hp Hlow.
  assert (listen_port m v) as Hl.
  { exists c. split; [done|]. split; [|by rewrite Hp].
    intros ->. by rewrite lookup_empty in Hp. }
  destruct (abort_port_too_low w _ _ _ _ _ _ _ _ Hs Hl Hlow) as [Hab Hmain].
  split; [exact Hab|]. rewrite Hmain. split; [apply last_snoc|].
  split; [|split; [|split]].
  - by eapply (before_intro _ _
                 (trace_params w ++ [EvLog WARNING MsgFixedKeyPair])
                 [EvLog DEBUG (MsgSendingEk host port);
                  EvLog DEBUG (MsgAmount (length ek))]
                 [EvSendAll ek; EvClose BobSocket;
                  EvLog ERROR (MsgPortTooLow v)]).
  - by eapply (before_intro _ _
                 (trace_keygen w d z
                  ++ [EvLog DEBUG (MsgSendingEk host port);
                      EvLog DEBUG (MsgAmount (length ek))])
                 []
                 [EvClose BobSocket; EvLog ERROR (MsgPortTooLow v)]).
  - by eapply (before_intro _ _
                 (trace_connect w d z host port ek) [EvClose BobSocket] []).
  - done.
Qed.

(** C5: when the outbound connection the program opens is refused,
    [send_ek_to_bob] returns [False] instead of raising, and the program logs
    the failed send and returns 1 without binding a listening socket or
    calling accept. *)
Theorem refused_connection_aborts_before_listening w host port :
  (host, port) ∈ connections_opened (main w).1 →
  net_connect w host port = Raise ConnectionRefusedError →
  (∀ ek, send_ek_to_bob w host port ek
         = ([EvConnect host port; EvClose BobSocket], Ret false))
  ∧ aborts SendFailed (main w)
  ∧ socket_writes (main w).1 = []
  ∧ bound_ports (main w).1 = [] ∧ accept_calls (main w).1 = [].
Proof.
  intros Hin Href. split.
  { intros ek. unfold send_ek_to_bob, call. by rewrite Href. }
  revert Hin. runs_of w; observers; receiver; simpl; intros Hin;
    try (by apply elem_of_nil in Hin);
    apply list_elem_of_singleton in Hin; injection Hin as -> ->;
    try congruence;
    try match goal with
        | H : ek_sent _ _ _ _ _ _ _ _ |- _ =>
            destruct H as (_ & _ & ? & _); congruence
        end.
  split; [aborting|done].
Qed.

(** *** The decapsulation key stays at home *)

Lemma key_generated_with_dk f w m d z ek dk :
  key_generated w m d z ek dk → key_generated (with_dk f w) m d z ek (f dk).
Proof.
  intros (Hl & Hs & Hk). split; [exact Hl|]. split; [exact Hs|].
  simpl. by rewrite Hk.
Qed.

Lemma ek_sent_with_dk f w m d z ek dk host port :
  ek_sent w m d z ek dk host port →
  ek_sent (with_dk f w) m d z ek (f dk) host port.
Proof.
  intros (Hk & Hp & Hc & Hs).
  split; [by apply key_generated_with_dk|]. split; [exact Hp|]. done.
Qed.

Lemma stops_with_dk f w d z (o : outcome Z) :
  stops (kem_KeyGen w d z) o → stops (kem_KeyGen (with_dk f w) d z) o.
Proof.
  intros [(e & He & ->)|[He ->]]%stops_inv; simpl; rewrite He; constructor.
Qed.

Lemma run_with_dk f w tr o :
  run w tr o →
  ∃ tr' o', run (with_dk f w) tr' o' ∧ network tr' = network tr.
Proof.
  intros Hrun.
  destruct Hrun;
    try match goal with
        | H : wait_for_bob_response w ?v = _ |- _ =>
            rewrite <- (wait_with_dk w f v) in H
        end;
    try match goal with
        | H : stops (kem_KeyGen w _ _) _ |- _ => apply (stops_with_dk f) in H
        end;
    repeat match goal with
        | H : ek_sent w _ _ _ _ _ _ _ |- _ => apply (ek_sent_with_dk f) in H
        | H : key_generated w _ _ _ _ _ |- _ =>
            apply (key_generated_with_dk f) in H
        end.
  all: try (eexists _, _; split; [by econstructor|reflexivity]).
  all: destruct (kem_Decaps w (f dk) ct) as [k'|e'|] eqn:Hd';
    (eexists _, _; split;
     [first [ by eapply run_done
            | eapply run_decaps_stops; [done..|];
              change (kem_Decaps (with_dk f w)) with (kem_Decaps w);
              rewrite Hd'; constructor ]
     | unfold network, connections_opened, socket_writes, bound_ports;
       by rewrite !observe_app ]).
Qed.

(** What goes over the network does not depend on the decapsulation key. *)
Lemma network_is_independent_of_dk f w :
  network (main (with_dk f w)).1 = network (main w).1.
Proof.
  destruct (run_with_dk f w _ _ (main_run w)) as (tr' & o' & Hrun & Hnet).
  by rewrite (run_main _ _ _ Hrun).
Qed.

Lemma until_from_decaps tr : tr = until_decaps tr ++ from_decaps tr.
Proof. induction tr as [|[] tr IH]; simpl; congruence. Qed.

Lemma until_decaps_app l1 l2 :
  decaps_calls l1 = [] → until_decaps (l1 ++ l2) = l1 ++ until_decaps l2.
Proof.
  unfold decaps_calls.
  induction l1 as [|[] l1 IH]; simpl; intros H; try done; by rewrite IH.
Qed.

Lemma from_decaps_app l1 l2 :
  decaps_calls l1 = [] → from_decaps (l1 ++ l2) = from_decaps l2.
Proof.
  unfold decaps_calls.
  induction l1 as [|[] l1 IH]; simpl; intros H; try done; by rewrite IH.
Qed.

Lemma waiting_without_decaps w d z host port ek v trw o :
  wait_for_bob_response w v = (trw, o) →
  decaps_calls (trace_waiting w d z host port ek ++ trw) = []
  ∧ decaps_calls
      (trace_waiting w d z host port ek ++ trw ++ [EvLog DEBUG MsgGotResponse])
    = [].
Proof.
  intros Hwait.
  pose proof (receiver_trace _ _ _ _ Hwait) as (_ & _ & _ & Hd & _).
  unfold decaps_calls. rewrite !observe_app, Hd. done.
Qed.

(** The run up to Decaps, and what follows it, path by path. *)
Lemma run_decaps w tr o :
  run w tr o →
  (decaps_calls tr = []
   ∨ ∃ m d z ek dk ct l,
       key_generated w m d z ek dk ∧ decaps_calls l = []
       ∧ tr = l ++ EvDecaps dk ct :: secret_logged (kem_Decaps w dk ct)).
Proof.
  intros Hrun. destruct Hrun;
    try (left; observers; receiver; reflexivity).
  - right.
    destruct (waiting_without_decaps w d z host port ek v trw _
                ltac:(eassumption)) as [_ Hq].
    exists m, d, z, ek, dk, ct,
      (trace_waiting w d z host port ek ++ trw
       ++ [EvLog DEBUG MsgGotResponse]). split; [by destruct H as (? & _)|].
    split; [exact Hq|].
    apply stops_inv in H3 as [(e & -> & _)|[-> _]]; simpl;
      by rewrite <- !app_assoc.
  - right.
    destruct (waiting_without_decaps w d z host port ek v trw _
                ltac:(eassumption)) as [_ Hq].
    exists m, d, z, ek, dk, ct,
      (trace_waiting w d z host port ek ++ trw
       ++ [EvLog DEBUG MsgGotResponse]). split; [by destruct H as (? & _)|].
    split; [exact Hq|]. rewrite H3. simpl. by rewrite <- !app_assoc.
Qed.

Lemma until_decaps_received w d z host port ek v trw o dk ct rest :
  wait_for_bob_response w v = (trw, o) →
  until_decaps (trace_waiting w d z host port ek ++ trw
                ++ EvLog DEBUG MsgGotResponse :: EvDecaps dk ct :: rest)
  = trace_waiting w d z host port ek ++ trw ++ [EvLog DEBUG MsgGotResponse].
Proof.
  intros Hwait.
  destruct (waiting_without_decaps w d z host port ek v trw o Hwait)
    as [_ Hq].
  replace (trace_waiting w d z host port ek ++ trw
           ++ EvLog DEBUG MsgGotResponse :: EvDecaps dk ct :: rest)
    with ((trace_waiting w d z host port ek ++ trw
           ++ [EvLog DEBUG MsgGotResponse]) ++ EvDecaps dk ct :: rest)
    by (by rewrite <- !app_assoc).
  rewrite (until_decaps_app _ _ Hq). simpl. by rewrite app_nil_r.
Qed.

Lemma run_with_dk_until_decaps f w tr o :
  run w tr o →
  ∃ tr' o', run (with_dk f w) tr' o' ∧ until_decaps tr' = until_decaps tr.
Proof.
  intros Hrun.
  destruct Hrun;
    try match goal with
        | H : wait_for_bob_response w ?v = _ |- _ =>
            pose proof H as Hwait;
            rewrite <- (wait_with_dk w f v) in H
        end;
    try match goal with
        | H : stops (kem_KeyGen w _ _) _ |- _ => apply (stops_with_dk f) in H
        end;
    repeat match goal with
        | H : ek_sent w _ _ _ _ _ _ _ |- _ => apply (ek_sent_with_dk f) in H
        | H : key_generated w _ _ _ _ _ |- _ =>
            apply (key_generated_with_dk f) in H
        end.
  all: try (eexists _, _; split; [by econstructor|reflexivity]).
  all: destruct (kem_Decaps w (f dk) ct) as [k'|e'|] eqn:Hd';
    (eexists _, _; split;
     [first [ by eapply run_done
            | eapply run_decaps_stops; [done..|];
              change (kem_Decaps (with_dk f w)) with (kem_Decaps w);
              rewrite Hd'; constructor ]
     | rewrite (until_decaps_received w _ _ _ _ _ _ _ _ _ _ _ Hwait);
       match goal with
       | H : wait_for_bob_response (with_dk _ _) _ = _ |- _ =>
           rewrite (until_decaps_received _ _ _ _ _ _ _ _ _ _ _ _ H)
       end; reflexivity ]).
Qed.

Lemma run_is_independent_of_dk_until_decaps f w :
  until_decaps (main (with_dk f w)).1 = until_decaps (main w).1.
Proof.
  destruct (run_with_dk_until_decaps f w _ _ (main_run w))
    as (tr' & o' & Hrun & Heq).
  by rewrite (run_main _ _ _ Hrun).
Qed.

Lemma from_decaps_main w :
  from_decaps (main w).1 = []
  ∨ ∃ m d z ek dk ct,
      key_generated w m d z ek dk
      ∧ from_decaps (main w).1
        = EvDecaps dk ct :: secret_logged (kem_Decaps w dk ct).
Proof.
  destruct (run_decaps w _ _ (main_run w))
    as [Hq|(m & d & z & ek & dk & ct & l & Hk & Hq & ->)].
  - left. rewrite <- (app_nil_r (main w).1), (from_decaps_app _ _ Hq). done.
  - right. exists m, d, z, ek, dk, ct. split; [done|].
    by rewrite (from_decaps_app _ _ Hq).
Qed.

(** C7: the only value the program ever writes to a socket is the
    encapsulation key returned by KeyGen, and the decapsulation key returned
    with it goes to Decaps and nowhere else: it is not among the values
    written, and what the program does on the network is the same whatever the
    provider returns as decapsulation key.  So is everything else it does
    before it calls Decaps, log lines and [print] included; and once Decaps
    has been called, on that key, the program only logs the secret Decaps
    returned. *)
Theorem only_the_encapsulation_key_is_sent w :
  (socket_writes (main w).1 = [] ∧ decaps_calls (main w).1 = []
   ∨ ∃ m d z ek dk,
       key_generated w m d z ek dk
       ∧ keygen_calls (main w).1 = [(d, z)]
       ∧ (socket_writes (main w).1 = [] ∨ socket_writes (main w).1 = [ek])
       ∧ (decaps_calls (main w).1 = []
          ∨ ∃ ct, decaps_calls (main w).1 = [(dk, ct)]))
  ∧ (∀ m d z ek dk,
       key_generated w m d z ek dk → ek ≠ dk →
       dk ∉ socket_writes (main w).1)
  ∧ (∀ f, network (main (with_dk f w)).1 = network (main w).1)
  ∧ (∀ f, until_decaps (main (with_dk f w)).1 = until_decaps (main w).1)
  ∧ (main w).1 = until_decaps (main w).1 ++ from_decaps (main w).1
  ∧ (from_decaps (main w).1 = []
     ∨ ∃ m d z ek dk ct,
         key_generated w m d z ek dk
         ∧ from_decaps (main w).1
           = EvDecaps dk ct :: secret_logged (kem_Decaps w dk ct)).
Proof.
  assert (socket_writes (main w).1 = [] ∧ decaps_calls (main w).1 = []
   ∨ ∃ m d z ek dk,
       key_generated w m d z ek dk
       ∧ keygen_calls (main w).1 = [(d, z)]
       ∧ (socket_writes (main w).1 = [] ∨ socket_writes (main w).1 = [ek])
       ∧ (decaps_calls (main w).1 = []
          ∨ ∃ ct, decaps_calls (main w).1 = [(dk, ct)])) as Hcases.
  { runs_of w; observers; receiver; simpl;
      try (left; split; reflexivity);
      repeat match goal with
        | H : ek_sent _ _ _ _ _ _ _ _ |- _ => destruct H as (? & _)
        end;
      right; exists m, d, z, ek, dk; eauto 10. }
  split; [exact Hcases|].
  split;
    [|split; [intros f; apply network_is_independent_of_dk|];
      split; [intros f; apply run_is_independent_of_dk_until_decaps|];
      split; [apply until_from_decaps|apply from_decaps_main]].
  intros m d z ek dk Hk Hne Hin.
  destruct Hcases as [[Hw _]|(m' & d' & z' & ek' & dk' & Hk' & _ & Hw & _)].
  - rewrite Hw in Hin. by apply elem_of_nil in Hin.
  - destruct (key_generated_fun _ _ _ _ _ _ _ _ _ _ _ Hk Hk')
      as (_ & _ & _ & <- & <-).
    destruct Hw as [Hw|Hw]; rewrite Hw in Hin.
    + by apply elem_of_nil in Hin.
    + apply list_elem_of_singleton in Hin. congruence.
Qed.

(** C8: with no peer address on the command line no outbound connection is
    ever opened, and once the key pair is generated the program logs the
    missing address and returns 1. *)
Theorem no_peer_address_aborts_after_keygen w :
  args_address w = None →
  connections_opened (main w).1 = []
  ∧ ∀ m d z ek dk,
      key_generated w m d z ek dk →
      aborts NoPeerAddress (main w)
      ∧ keygen_calls (main w).1 = [(d, z)]
      ∧ before (EvKeyGen d z) (EvLog ERROR MsgNoAddress) (main w).1.
Proof.
  intros Ha. split.
  - runs_of w; observers; receiver; simpl; try reflexivity;
      repeat match goal with
        | H : ek_sent _ _ _ _ _ _ _ _ |- _ => destruct H as (_ & ? & _)
        | H : peer_parsed _ _ _ |- _ => destruct H as (? & ? & ? & ? & _)
        end; congruence.
  - intros m d z ek dk Hk. split; [by eapply abort_no_peer_address|].
    rewrite (run_main w _ _ (run_no_peer_address w m d z ek dk Hk Ha)).
    split; [done|].
    by eapply (before_intro _ _
                 (trace_params w ++ [EvLog WARNING MsgFixedKeyPair]) [] []).
Qed.

(** ** Malformed configuration and command line *)

(** C6, as the code has it: when [d] or [z] is absent (or null) the program
    logs the missing parameters and returns 1; when both are there and one of
    them is not a hexadecimal string, [bytearray.fromhex] raises and nothing
    catches it, so the process ends on the exception and no reason is logged.
    KeyGen is invoked in neither case. *)
Theorem unusable_seeds_stop_before_keygen w m :
  params_loaded w m → (∀ d z, ¬ seeds_decoded m d z) →
  keygen_calls (main w).1 = []
  ∧ (field m "d" = PyNone ∨ field m "z" = PyNone →
     aborts MissingSeed (main w))
  ∧ (field m "d" ≠ PyNone → field m "z" ≠ PyNone →
     ∃ e, (e = ValueError ∨ e = TypeError)
          ∧ (main w).2 = Raise e ∧ error_logs (main w).1 = []).
Proof.
  intros Hl Hbad.
  destruct (is_none (field m "d") || is_none (field m "z")) eqn:Hnone.
  - rewrite (run_main w _ _ (run_missing_seed w m Hl Hnone)).
    split; [done|]. split.
    + intros _. aborting.
    + intros Hd%is_none_false Hz%is_none_false.
      rewrite Hd, Hz in Hnone. done.
  - assert (∃ e, (e = ValueError ∨ e = TypeError)
                 ∧ main w = (trace_params w, Raise e)) as (e & He & Hmain).
    { destruct (Py.fromhex (field m "d")) as [d|e|] eqn:Hd;
        [|exists e; split; [by eapply fromhex_raises|];
          by apply run_main, (run_bad_seed_d w m)
         |by destruct (fromhex_not_block _ Hd)].
      destruct (Py.fromhex (field m "z")) as [z|e|] eqn:Hz;
        [by destruct (Hbad d z)
        |exists e; split; [by eapply fromhex_raises|];
          by apply run_main, (run_bad_seed_z w m d)
        |by destruct (fromhex_not_block _ Hz)]. }
    rewrite Hmain. split; [done|]. split.
    + apply orb_false_elim in Hnone as [Hd Hz].
      intros [Hn|Hn]; rewrite Hn in *; done.
    + intros _ _. exists e. done.
Qed.

(** C9, as the code has it: with a non-empty [connections] object that has no
    [port], the listen port is 0 and, once the key has been sent, the program
    returns 1 through the port check; an empty [connections] object is false
    under [if connections:] and takes the branch of the missing section. *)
Theorem missing_port_defaults_to_zero w m d z ek dk host port c :
  ek_sent w m d z ek dk host port →
  m !! "connections" = Some (PyDict c) → c !! "port" = None →
  (c ≠ ∅ →
   aborts InvalidPort (main w)
   ∧ error_logs (main w).1 = [MsgPortTooLow (PyInt 0)])
  ∧ (c = ∅ →
     aborts MissingListenConfig (main w)
     ∧ error_logs (main w).1 = [MsgNoConnectionSection (args_params w)]).
Proof.
  intros Hs Hc Hp. split.
  - intros Hne.
    assert (listen_port m (PyInt 0)) as Hl.
    { exists c. by rewrite Hp. }
    destruct (abort_port_too_low w _ _ _ _ _ _ _ (PyInt 0) Hs Hl eq_refl)
      as [Hab Hmain].
    split; [exact Hab|]. by rewrite Hmain.
  - intros ->.
    assert (Py.truthy (field m "connections") = false) as Ht.
    { unfold field. by rewrite Hc. }
    split; [by eapply abort_no_listen_config|].
    by rewrite (run_main w _ _
                  (run_no_listen_config w m d z ek dk host port Hs Ht)).
Qed.

(** A run with a colon-less address never gets to the Outbound Sender. *)
Lemma colonless_address_never_connects w a :
  args_address w = Some a → contains ":" a = false →
  connections_opened (main w).1 = [] ∧ (main w).2 ≠ Ret 0.
Proof.
  intros Ha Hs%split_no_separator.
  runs_of w; observers; receiver; simpl;
    open_stage;
    repeat match goal with
      | H1 : args_address w = Some ?x, H2 : args_address w = Some ?y |- _ =>
          rewrite H1 in H2; injection H2 as <-
      end;
    try congruence;
    split; done.
Qed.

(** C10: a peer address without a colon makes [split(":")[1]] raise
    IndexError, which nothing catches: the program logs no error and opens no
    connection.  The address is not checked to be one host:port pair either:
    whatever follows a second colon is ignored. *)
Theorem address_without_colon_raises w a :
  args_address w = Some a →
  (contains ":" a = false →
   connections_opened (main w).1 = [] ∧ (main w).2 ≠ Ret 0
   ∧ ∀ m d z ek dk,
       key_generated w m d z ek dk →
       (main w).2 = Raise IndexError ∧ error_logs (main w).1 = []
       ∧ last (main w).1 = Some (EvKeyGen d z))
  ∧ (∀ m d z ek dk host p rest port,
       key_generated w m d z ek dk →
       Py.split ":" a = host :: p :: rest → py_int w p = Ret port →
       connections_opened (main w).1 = [(host, port)]).
Proof.
  intros Ha. split.
  - intros Hc.
    destruct (colonless_address_never_connects w a Ha Hc) as [Hconn Hret].
    split; [exact Hconn|]. split; [exact Hret|].
    intros m d z ek dk Hk. apply split_no_separator in Hc.
    assert (Py.split ":" a !! 1%nat = None) as Hidx by by rewrite Hc.
    by rewrite (run_main w _ _ (run_no_colon w m d z ek dk a Hk Ha Hidx)).
  - intros m d z ek dk host p rest port Hk Hs Hp.
    revert Hk.
    runs_of w; observers; receiver; simpl; intros Hk;
      open_stage;
      repeat match goal with
        | H : _ || _ = true |- _ => apply orb_true_iff in H as [H|H]
        | H1 : args_address w = Some ?x, H2 : args_address w = Some ?y |- _ =>
            rewrite H1 in H2; injection H2 as <-
        | H1 : Py.split ":" ?x = _, H2 : Py.split ":" ?x !! _ = _ |- _ =>
            rewrite H1 in H2; discriminate H2
        end;
      congruence.
Qed.

(** ** The theorems at work on concrete runs *)

Ltac demo := repeat first [split | eexists]; reflexivity.

Lemma demo_key_generated connections :
  key_generated (Demo.configured connections)
    (Demo.record "0011" "2233" connections) Demo.d Demo.z Demo.ek Demo.dk.
Proof. demo. Defined.

Lemma demo_ek_sent connections :
  ek_sent (Demo.configured connections)
    (Demo.record "0011" "2233" connections) Demo.d Demo.z Demo.ek Demo.dk
    "127.0.0.1" 6000.
Proof. demo. Defined.

Lemma short_read_witness :
  (wait_for_bob_response Demo.short (PyInt 5000)).2
  = Ret [Byte.x01; Byte.x02; Byte.x03].
Proof.
  apply (short_read_is_returned Demo.short 5000 Demo.short_reply);
    [reflexivity | reflexivity | reflexivity | vm_compute; lia].
Defined.

Lemma full_read_witness :
  (wait_for_bob_response Demo.long (PyInt 5000)).2
  = Ret (Byte.x01 :: take 767 Demo.ciphertext).
Proof.
  apply (proj1 full_read_is_the_first_768_bytes Demo.long 5000
           Demo.long_reply);
    [reflexivity | reflexivity | vm_compute; lia].
Defined.

(** The program run on a record whose listen port is 80: the port is looked
    at only after KeyGen was called and the key was sent to Bob. *)
Lemma low_port_is_checked_after_keygen_and_send :
  params_loaded Demo.low_port
    (Demo.record "0011" "2233" (PyDict (Demo.section 80)))
  ∧ Demo.section 80 !! "port" = Some (PyInt 80)
  ∧ Py.lt_int (PyInt 80) 1024 = Ret true
  ∧ main Demo.low_port
    = ([EvLog DEBUG MsgParsingParameters;
        EvPrintArgs "alice_params.json" (Some "127.0.0.1:6000");
        EvLog DEBUG MsgStarting;
        EvLog DEBUG (MsgLoading "alice_params.json");
        EvOpenFile "alice_params.json"; EvNewMLKEM;
        EvLog WARNING MsgFixedKeyPair;
        EvKeyGen [Byte.x00; Byte.x11] [Byte.x22; Byte.x33];
        EvLog DEBUG (MsgSendingEk "127.0.0.1" 6000);
        EvLog DEBUG (MsgAmount 4); EvConnect "127.0.0.1" 6000;
        EvSendAll [Byte.x00; Byte.x11; Byte.x22; Byte.x33];
        EvClose BobSocket; EvLog ERROR (MsgPortTooLow (PyInt 80))],
       Ret 1)
  ∧ keygen_calls (main Demo.low_port).1 ≠ []
  ∧ connections_opened (main Demo.low_port).1 ≠ [].
Proof. repeat split; try reflexivity; by vm_compute. Qed.

Lemma low_port_witness : aborts InvalidPort (main Demo.low_port).
Proof.
  exact (proj1 (low_port_is_rejected_after_the_send Demo.low_port
                  _ _ _ _ _ _ _ (Demo.section 80) (PyInt 80)
                  (demo_ek_sent _) eq_refl eq_refl eq_refl)).
Defined.

Lemma exit_status_witness :
  exit_status (main Demo.good).2 = Some 0
  ∧ aborts ConfigNotFound (main Demo.no_file)
  ∧ aborts MissingSeed (main Demo.no_seed)
  ∧ aborts MissingListenConfig (main Demo.no_section)
  ∧ aborts InvalidPort (main Demo.no_port)
  ∧ aborts NoPeerAddress (main Demo.no_address)
  ∧ aborts SendFailed (main Demo.refused).
Proof.
  refine (conj _ (conj _ (conj _ (conj _ (conj _ (conj _ _)))))).
  - refine (proj1 (proj1 (exit_status_of_every_outcome Demo.good)
                     _ _ _ _ _ _ _ (PyInt 5000) Demo.ciphertext _
                     (demo_ek_sent _) _ eq_refl _ eq_refl)).
    + exists (Demo.section 5000). by vm_compute.
    + by vm_compute.
  - exact (proj1 (proj2 (exit_status_of_every_outcome Demo.no_file))
             eq_refl).
  - refine (proj1 (proj2 (proj2 (exit_status_of_every_outcome Demo.no_seed)))
              (<["z" := PyStr "2233"]> ∅) eq_refl _).
    by left.
  - exact (proj1 (proj2 (proj2 (proj2
             (exit_status_of_every_outcome Demo.no_section))))
             _ _ _ _ _ _ _ (demo_ek_sent _) eq_refl).
  - refine (proj1 (proj2 (proj2 (proj2 (proj2
              (exit_status_of_every_outcome Demo.no_port)))))
              _ _ _ _ _ _ _ (PyInt 0) (demo_ek_sent _) _ eq_refl).
    exists (<["host" := PyStr "localhost"]> ∅). by vm_compute.
  - refine (proj1 (proj2 (proj2 (proj2 (proj2 (proj2
              (exit_status_of_every_outcome Demo.no_address))))))
              (Demo.record "0011" "2233" (PyDict (Demo.section 5000)))
              Demo.d Demo.z Demo.ek Demo.dk _ eq_refl).
    demo.
  - refine (proj1 (proj2 (proj2 (proj2 (proj2 (proj2 (proj2
              (exit_status_of_every_outcome Demo.refused)))))))
              (Demo.record "0011" "2233" (PyDict (Demo.section 5000)))
              Demo.d Demo.z Demo.ek Demo.dk "127.0.0.1" 6000 _ _ eq_refl);
      demo.
Defined.

Lemma refused_connection_witness :
  aborts SendFailed (main Demo.refused)
  ∧ bound_ports (main Demo.refused).1 = []
  ∧ accept_calls (main Demo.refused).1 = [].
Proof.
  assert (("127.0.0.1"%string, 6000) ∈ connections_opened (main Demo.refused).1)
    as Hin by (vm_compute; apply list_elem_of_here).
  destruct (refused_connection_aborts_before_listening Demo.refused
              "127.0.0.1" 6000 Hin eq_refl) as (_ & Hab & _ & Hb & Ha).
  exact (conj Hab (conj Hb Ha)).
Defined.

(** The program run on a record whose [d] is not hexadecimal: it ends on the
    ValueError of [bytearray.fromhex], having logged no error. *)
Lemma invalid_hex_seed_is_not_reported :
  params_loaded Demo.bad_hex
    (Demo.record "zz" "2233" (PyDict (Demo.section 5000)))
  ∧ Py.fromhex (PyStr "zz") = Raise ValueError
  ∧ main Demo.bad_hex
    = ([EvLog DEBUG MsgParsingParameters;
        EvPrintArgs "alice_params.json" (Some "127.0.0.1:6000");
        EvLog DEBUG MsgStarting;
        EvLog DEBUG (MsgLoading "alice_params.json");
        EvOpenFile "alice_params.json"; EvNewMLKEM],
       Raise ValueError)
  ∧ ¬ aborts MissingSeed (main Demo.bad_hex).
Proof.
  repeat split; try reflexivity.
  intros [Hret _]. vm_compute in Hret. discriminate Hret.
Qed.

Lemma unusable_seeds_witness :
  keygen_calls (main Demo.bad_hex).1 = []
  ∧ ∃ e, (e = ValueError ∨ e = TypeError)
         ∧ (main Demo.bad_hex).2 = Raise e
         ∧ error_logs (main Demo.bad_hex).1 = [].
Proof.
  assert (∀ d z, ¬ seeds_decoded
                     (Demo.record "zz" "2233" (PyDict (Demo.section 5000)))
                     d z) as Hbad.
  { intros d z [Hd _]. vm_compute in Hd. discriminate Hd. }
  destruct (unusable_seeds_stop_before_keygen Demo.bad_hex _ eq_refl Hbad)
    as (Hk & _ & He).
  split; [exact Hk|]. apply He; by vm_compute.
Defined.

Lemma only_ek_witness : Demo.dk ∉ socket_writes (main Demo.good).1.
Proof.
  apply (proj1 (proj2 (only_the_encapsulation_key_is_sent Demo.good))
           _ _ _ _ _ (demo_key_generated _)).
  by vm_compute.
Defined.

Lemma no_peer_address_witness :
  connections_opened (main Demo.no_address).1 = []
  ∧ aborts NoPeerAddress (main Demo.no_address).
Proof.
  destruct (no_peer_address_aborts_after_keygen Demo.no_address eq_refl)
    as [Hc Hk].
  split; [exact Hc|].
  refine (proj1 (Hk (Demo.record "0011" "2233" (PyDict (Demo.section 5000)))
                    Demo.d Demo.z Demo.ek Demo.dk _)).
  demo.
Defined.

(** The program run on a record whose [connections] is the empty object: it
    takes the branch of the missing section, not the port check. *)
Lemma empty_connections_is_reported_missing :
  params_loaded Demo.empty_section (Demo.record "0011" "2233" (PyDict ∅))
  ∧ Demo.record "0011" "2233" (PyDict ∅) !! "connections" = Some (PyDict ∅)
  ∧ (∅ : gmap string pyval) !! "port" = None
  ∧ main Demo.empty_section
    = ([EvLog DEBUG MsgParsingParameters;
        EvPrintArgs "alice_params.json" (Some "127.0.0.1:6000");
        EvLog DEBUG MsgStarting;
        EvLog DEBUG (MsgLoading "alice_params.json");
        EvOpenFile "alice_params.json"; EvNewMLKEM;
        EvLog WARNING MsgFixedKeyPair;
        EvKeyGen [Byte.x00; Byte.x11] [Byte.x22; Byte.x33];
        EvLog DEBUG (MsgSendingEk "127.0.0.1" 6000);
        EvLog DEBUG (MsgAmount 4); EvConnect "127.0.0.1" 6000;
        EvSendAll [Byte.x00; Byte.x11; Byte.x22; Byte.x33];
        EvClose BobSocket;
        EvLog ERROR (MsgNoConnectionSection "alice_params.json")],
       Ret 1)
  ∧ ¬ aborts InvalidPort (main Demo.empty_section).
Proof.
  repeat split; try reflexivity.
  intros (_ & msg & _ & Hlogs & Hreason).
  vm_compute in Hlogs. injection Hlogs as <-. discriminate Hreason.
Qed.

Lemma missing_port_witness :
  aborts InvalidPort (main Demo.no_port)
  ∧ error_logs (main Demo.no_port).1 = [MsgPortTooLow (PyInt 0)].
Proof.
  apply (proj1 (missing_port_defaults_to_zero Demo.no_port
                  _ _ _ _ _ _ _ (<["host" := PyStr "localhost"]> ∅)
                  (demo_ek_sent _) eq_refl eq_refl)).
  by vm_compute.
Defined.

Lemma address_without_colon_witness :
  (main Demo.no_colon).2 = Raise IndexError
  ∧ error_logs (main Demo.no_colon).1 = []
  ∧ last (main Demo.no_colon).1 = Some (EvKeyGen Demo.d Demo.z).
Proof.
  refine (proj2 (proj2 (proj1 (address_without_colon_raises Demo.no_colon
                                 "localhost" eq_refl) eq_refl))
            (Demo.record "0011" "2233" (PyDict (Demo.section 5000)))
            Demo.d Demo.z Demo.ek Demo.dk _).
  demo.
Defined.

(** * More of the program *)

#[local] Opaque recv_loop.

(** ** The receive loop, in closed form *)

Section Reads.
#[local] Open Scope nat_scope.

Lemma recv_stops c n o c' :
  0 < n → recv c n = (o, c') →
  match o with
  | Ret _ => True
  | Raise e => e = ConnectionResetError ∧ stream c = [] ∧ ending c = PeerResets
  | Block => stream c = [] ∧ ending c = PeerSilent
  end.
Proof.
  intros Hn. unfold recv, stream.
  induction (pending c) as [|[|b l] rest IH]; simpl.
  - destruct (ending c); intros [= <- _]; done.
  - exact IH.
  - by intros [= <- _].
Qed.

Lemma recv_loop_outcome c buf :
  length buf ≤ CIPHER_TEXT_SIZE_IN_BYTES →
  (recv_loop c buf).2 = expected_read buf c.
Proof.
  unfold expected_read.
  funelim (recv_loop c buf); intros Hlen; clear Heqcall.
  - rewrite decide_True by lia. simpl. f_equal. symmetry.
    apply take_app_length'. lia.
  - apply recv_eof in Heq as [-> ->]; [|lia].
    rewrite decide_False by (simpl; lia). simpl. by rewrite app_nil_r.
  - apply recv_data in Heq as (Hd & Hs & He); [|lia].
    destruct (recv_loop c' (cipher_text ++ b :: data)) as [tr o] eqn:Hrec.
    simpl in *. rewrite H by (rewrite length_app; simpl; lia).
    rewrite Hs, He, <- !app_assoc, !length_app. simpl.
    rewrite !length_app. simpl.
    by replace (length cipher_text + S (length data) + length (stream c'))
      with (length cipher_text + S (length data + length (stream c'))) by lia.
  - apply recv_stops in Heq as (-> & -> & ->); [|lia].
    rewrite decide_False by (simpl; lia). done.
  - apply recv_stops in Heq as (-> & ->); [|lia].
    rewrite decide_False by (simpl; lia). done.
Qed.

Lemma recv_loop_read_requests c buf :
  length (read_requests (recv_loop c buf).1)
    ≤ CIPHER_TEXT_SIZE_IN_BYTES - length buf
  ∧ StronglySorted (λ a b, b < a) (read_requests (recv_loop c buf).1).
Proof.
  unfold read_requests.
  funelim (recv_loop c buf); clear Heqcall; simpl.
  - split; [lia|constructor].
  - split; [lia|]. repeat constructor.
  - apply recv_data in Heq as (Hd & Hs & He); [|lia].
    pose proof (recv_loop_requests c' (cipher_text ++ b :: data)) as Hreq.
    destruct (recv_loop c' (cipher_text ++ b :: data)) as [tr o] eqn:Hrec.
    simpl in *. destruct H as [Hlen Hsorted].
    rewrite length_app in Hlen, Hreq. simpl in Hlen, Hreq. split; [lia|].
    constructor; [done|]. apply Forall_forall. intros n Hn.
    assert (EvRecv n ∈ tr) as Hin.
    { clear -Hn. induction tr as [|e tr IH]; simpl in Hn.
      - by apply elem_of_nil in Hn.
      - destruct e; simpl in Hn; try (right; by apply IH).
        apply elem_of_cons in Hn as [->|Hn]; [left|right; by apply IH]. }
    apply Hreq in Hin. lia.
  - split; [lia|]. repeat constructor.
  - split; [lia|]. repeat constructor.
Qed.

End Reads.

(** ** The Inbound Receiver, run by run *)

#[local] Transparent wait_for_bob_response.

(** Every run of the receiver is one of [receives]. *)
Lemma wait_run w port :
  receives w port (wait_for_bob_response w port).1
    (wait_for_bob_response w port).2.
Proof.
  unfold wait_for_bob_response, call, pure, emit.
  destruct (Py.as_port port) as [p|e|] eqn:Hp; simpl;
    [|by constructor|by destruct port].
  destruct (net_bind w p) as [[]|e|] eqn:Hb; simpl;
    [|by econstructor..].
  destruct (net_accept w p) as [c|e|] eqn:Ha; simpl;
    [|by econstructor..].
  destruct (recv_loop c []) as [reads [buf|e|]] eqn:Hloop; simpl.
  - rewrite <- app_assoc.
    exact (receives_read_ends w port p c reads (Ret buf) Hp Hb Ha Hloop
             ltac:(done)).
  - rewrite <- app_assoc.
    exact (receives_read_ends w port p c reads (Raise e) Hp Hb Ha Hloop
             ltac:(done)).
  - exact (receives_read_blocks w port p c reads Hp Hb Ha Hloop).
Qed.

#[local] Opaque wait_for_bob_response.

Ltac receives_of w port :=
  let Hrun := fresh "Hrun" in
  let tr := fresh "tr" in
  let o := fresh "o" in
  pose proof (wait_run w port) as Hrun;
  destruct (wait_for_bob_response w port) as [tr o]; simpl in Hrun |- *;
  destruct Hrun.

(** X1: a peer that is reset, or that stays silent, after fewer than 768
    bytes does not get a short buffer out of [wait_for_bob_response]: the
    reset is raised to the caller and the bytes read so far are lost; with a
    silent peer the call never returns, since no timeout is set. *)
Theorem incomplete_read_raises_or_blocks w p c :
  net_bind w p = Ret tt → net_accept w p = Ret c →
  (length (stream c) < 768)%nat →
  (ending c = PeerResets →
   (wait_for_bob_response w (PyInt p)).2 = Raise ConnectionResetError)
  ∧ (ending c = PeerSilent →
     (wait_for_bob_response w (PyInt p)).2 = Block).
Proof.
  intros Hb Ha Hlen.
  rewrite (wait_outcome w p c Hb Ha), recv_loop_outcome by (simpl; lia).
  unfold expected_read.
  rewrite decide_False by (rewrite cipher_text_size; simpl; lia).
  split; intros ->; done.
Qed.

(** X2: what [wait_for_bob_response] makes of a connection depends on the
    bytes the peer sent and on how the peer ends, not on the segments the
    bytes arrive in. *)
Theorem read_ignores_segmentation w w' p p' c c' :
  net_bind w p = Ret tt → net_accept w p = Ret c →
  net_bind w' p' = Ret tt → net_accept w' p' = Ret c' →
  stream c = stream c' → ending c = ending c' →
  (wait_for_bob_response w (PyInt p)).2
  = (wait_for_bob_response w' (PyInt p')).2.
Proof.
  intros Hb Ha Hb' Ha' Hs He.
  rewrite (wait_outcome w p c Hb Ha), (wait_outcome w' p' c' Hb' Ha').
  rewrite !recv_loop_outcome by (simpl; lia).
  unfold expected_read. by rewrite Hs, He.
Qed.

(** X3: [wait_for_bob_response] calls [recv] at most 768 times, and every
    call asks for fewer bytes than the one before it. *)
Theorem reads_are_bounded_and_shrink w port :
  (length (read_requests (wait_for_bob_response w port).1) ≤ 768)%nat
  ∧ StronglySorted (λ a b, (b < a)%nat)
      (read_requests (wait_for_bob_response w port).1).
Proof.
  rewrite <- cipher_text_size. unfold read_requests.
  receives_of w port; simpl; try (split; [lia|constructor]).
  - pose proof (recv_loop_read_requests c []) as [Hlen Hsorted].
    unfold read_requests in *. rewrite H2 in Hlen, Hsorted.
    simpl in Hlen, Hsorted. split; [lia|done].
  - pose proof (recv_loop_read_requests c []) as [Hlen Hsorted].
    unfold read_requests in *. rewrite H2 in Hlen, Hsorted.
    simpl in Hlen, Hsorted.
    rewrite observe_app. simpl. rewrite app_nil_r. split; [lia|done].
Qed.


(** ** The Outbound Sender *)

Lemma send_ek_raises w host port ek e :
  e ≠ ConnectionRefusedError →
  (send_ek_to_bob w host port ek).2 = Raise e ↔
  net_connect w host port = Raise e
  ∨ (net_connect w host port = Ret tt
     ∧ net_sendall w host port ek = Raise e).
Proof.
  intros Hne. unfold send_ek_to_bob, try_except, with_closing, call. simpl.
  destruct (net_connect w host port) as [[]|e1|]; simpl.
  - destruct (net_sendall w host port ek) as [[]|e2|]; simpl.
    + split; [done|]. by intros [|[_ ?]].
    + destruct (decide (e2 = ConnectionRefusedError)) as [->|Hne2]; simpl.
      * split; [done|]. intros [|[_ ?]]; [done|congruence].
      * split; [intros [= ->]; by right|]. intros [|[_ ?]]; congruence.
    + split; [done|]. by intros [|[_ ?]].
  - destruct (decide (e1 = ConnectionRefusedError)) as [->|Hne1]; simpl.
    + split; [done|]. intros [|[? _]]; congruence.
    + split; [intros [= ->]; by left|]. intros [|[? _]]; congruence.
  - split; [done|]. by intros [|[? _]].
Qed.

Lemma send_ek_true w host port ek :
  (send_ek_to_bob w host port ek).2 = Ret true ↔
  net_connect w host port = Ret tt ∧ net_sendall w host port ek = Ret tt.
Proof.
  unfold send_ek_to_bob, try_except, with_closing, call. simpl.
  destruct (net_connect w host port) as [[]|e1|]; simpl.
  - destruct (net_sendall w host port ek) as [[]|e2|]; simpl.
    + done.
    + case_decide; simpl; split; try done; by intros [_ ?].
    + split; [done|]. by intros [_ ?].
  - case_decide; simpl; split; try done; by intros [? _].
  - split; [done|]. by intros [? _].
Qed.

Lemma send_ek_never_refused w host port ek :
  (send_ek_to_bob w host port ek).2 ≠ Raise ConnectionRefusedError.
Proof.
  unfold send_ek_to_bob, try_except, with_closing, call. simpl.
  destruct (net_connect w host port) as [[]|e1|]; simpl;
    [destruct (net_sendall w host port ek) as [[]|e2|]; simpl|..];
    repeat case_decide; simpl; congruence.
Qed.

(** X5: [send_ek_to_bob] returns [True] exactly when both [connect] and
    [sendall] return, and [False] exactly when one of them is refused; it
    never raises ConnectionRefusedError, and every other exception of
    [connect] or [sendall] comes out of it unchanged. *)
Theorem send_ek_reports_only_a_refusal w address port ek :
  ((send_ek_to_bob w address port ek).2 = Ret true
   ↔ net_connect w address port = Ret tt
     ∧ net_sendall w address port ek = Ret tt)
  ∧ ((send_ek_to_bob w address port ek).2 = Ret false
     ↔ net_connect w address port = Raise ConnectionRefusedError
       ∨ (net_connect w address port = Ret tt
          ∧ net_sendall w address port ek = Raise ConnectionRefusedError))
  ∧ (send_ek_to_bob w address port ek).2 ≠ Raise ConnectionRefusedError
  ∧ (∀ e, e ≠ ConnectionRefusedError →
       ((send_ek_to_bob w address port ek).2 = Raise e
        ↔ net_connect w address port = Raise e
          ∨ (net_connect w address port = Ret tt
             ∧ net_sendall w address port ek = Raise e))).
Proof.
  split; [apply send_ek_true|].
  split; [apply send_ek_false|].
  split; [apply send_ek_never_refused|].
  intros e He. by apply send_ek_raises.
Qed.


(** ** The orchestrator: what it does not handle *)

Lemma port_checked v p :
  Py.as_port v = Ret p → Py.lt_int v 1024 = Ret false →
  v = PyInt p ∧ 1024 ≤ p.
Proof.
  destruct v as [|b|n| | | |]; simpl; try done.
  - by destruct b.
  - intros [= <-] [= H%Z.ltb_ge]. done.
Qed.

Lemma port_accepted p : 1024 ≤ p → Py.lt_int (PyInt p) 1024 = Ret false.
Proof. intros Hp. simpl. f_equal. by apply Z.ltb_ge. Qed.

(** What [main] does once the receiver has been called. *)
Lemma main_receive_stops w m d z ek dk host port v trw o (o' : outcome Z) :
  ek_sent w m d z ek dk host port → listen_port m v →
  Py.lt_int v 1024 = Ret false →
  wait_for_bob_response w v = (trw, o) → stops o o' →
  main w = (trace_waiting w d z host port ek ++ trw, o').
Proof. intros. apply run_main. by eapply run_receive_stops. Qed.

Lemma main_received w m d z ek dk host port v trw ct :
  ek_sent w m d z ek dk host port → listen_port m v →
  Py.lt_int v 1024 = Ret false →
  wait_for_bob_response w v = (trw, Ret ct) →
  main w
  = match kem_Decaps w dk ct with
    | Ret k =>
        (trace_waiting w d z host port ek ++ trw
         ++ [EvLog DEBUG MsgGotResponse; EvDecaps dk ct;
             EvLog DEBUG MsgSecretObtained; EvLog DEBUG (MsgShouldBe k)],
         Ret 0)
    | Raise e =>
        (trace_waiting w d z host port ek ++ trw
         ++ [EvLog DEBUG MsgGotResponse; EvDecaps dk ct], Raise e)
    | Block =>
        (trace_waiting w d z host port ek ++ trw
         ++ [EvLog DEBUG MsgGotResponse; EvDecaps dk ct], Block)
    end.
Proof.
  intros Hs Hl Hlow Hwait.
  destruct (kem_Decaps w dk ct) as [k|e|] eqn:Hdec; apply run_main.
  - by eapply run_done.
  - eapply run_decaps_stops; [done..|]. rewrite Hdec. constructor.
  - eapply run_decaps_stops; [done..|]. rewrite Hdec. constructor.
Qed.

Lemma wait_bound w v trw o p :
  wait_for_bob_response w v = (trw, o) → p ∈ bound_ports trw →
  Py.as_port v = Ret p ∧ ∃ l, trw = EvBind p :: l.
Proof.
  intros H. pose proof (wait_run w v) as Hr. rewrite H in Hr. simpl in Hr.
  unfold bound_ports.
  destruct Hr; simpl;
    try match goal with
        | H : recv_loop ?c [] = (?reads, _) |- _ =>
            pose proof (recv_loop_unobserved bound_port c [] (λ _, eq_refl))
              as Hquiet;
            rewrite H in Hquiet; simpl in Hquiet;
            rewrite ?observe_app, ?Hquiet
        end; simpl;
    intros Hin; try (by apply elem_of_nil in Hin);
    apply list_elem_of_singleton in Hin; subst; eauto.
Qed.

(** X7: only FileNotFoundError is handled when the parameter file is
    loaded.  Any other failure of [open] or [json.load] (a file that is not
    JSON, a permission error) ends the program on that exception, with exit
    status 1, before the KEM is constructed and without a line at ERROR. *)
Theorem other_load_errors_are_not_handled w e :
  fs_json_load w (args_params w) = Raise e → e ≠ FileNotFoundError →
  (main w).2 = Raise e ∧ exit_status (main w).2 = Some 1
  ∧ error_logs (main w).1 = []
  ∧ last (main w).1 = Some (EvOpenFile (args_params w)).
Proof.
  intros Hl Hne.
  assert (run w (trace_init w) (Raise e)) as Hrun.
  { apply run_load_stops; [rewrite Hl; constructor|congruence]. }
  rewrite (run_main w _ _ Hrun). done.
Qed.

(** X8: a parameter file whose JSON document is not an object makes
    [params.get] raise AttributeError, which nothing catches: the program ends
    on it right after constructing the KEM, logs no error and never calls
    KeyGen. *)
Theorem configuration_must_be_an_object w v :
  fs_json_load w (args_params w) = Ret v → (∀ m, v ≠ PyDict m) →
  (main w).2 = Raise AttributeError ∧ error_logs (main w).1 = []
  ∧ keygen_calls (main w).1 = [] ∧ last (main w).1 = Some EvNewMLKEM.
Proof.
  intros Hl Hv.
  rewrite (run_main w _ _ (run_not_a_dict w v Hl Hv)). done.
Qed.

(** X9: KeyGen is only ever called, once, on the two seeds decoded from the
    [d] and [z] of the parameter file, and the warning about the fixed key
    pair is logged immediately before the call; before that the program has
    only read its parameters and constructed the KEM. *)
Theorem keygen_gets_the_decoded_seeds w d z :
  (d, z) ∈ keygen_calls (main w).1 →
  (∃ m, params_loaded w m ∧ seeds_decoded m d z)
  ∧ keygen_calls (main w).1 = [(d, z)]
  ∧ ∃ l, (main w).1
         = trace_params w ++ EvLog WARNING MsgFixedKeyPair :: EvKeyGen d z :: l.
Proof.
  runs_of w; observers; receiver; simpl; intros Hin;
    try (by apply elem_of_nil in Hin);
    apply list_elem_of_singleton in Hin; injection Hin as -> ->;
    (split; [|split; [done|by eexists]]);
    repeat match goal with
           | H : ek_sent _ _ _ _ _ _ _ _ |- _ => destruct H as (H & _)
           | H : key_generated _ _ _ _ _ _ |- _ => destruct H as (? & ? & _)
           end; eauto.
Qed.

Lemma bound_ports_waiting w d z host port ek :
  observe bound_port (trace_waiting w d z host port ek) = [].
Proof. reflexivity. Qed.

Lemma bound_after_send w d z host port ek p l rest :
  before (EvSendAll ek) (EvClose BobSocket)
    (trace_waiting w d z host port ek ++ (EvBind p :: l) ++ rest)
  ∧ before (EvClose BobSocket) (EvBind p)
      (trace_waiting w d z host port ek ++ (EvBind p :: l) ++ rest).
Proof.
  split.
  - exists (trace_connect w d z host port ek), [],
      (EvLog DEBUG MsgWaiting :: (EvBind p :: l) ++ rest).
    unfold trace_waiting, trace_sent, trace_sendall.
    by rewrite <- !app_assoc.
  - exists (trace_sendall w d z host port ek), [EvLog DEBUG MsgWaiting],
      (l ++ rest).
    unfold trace_waiting, trace_sent. by rewrite <- !app_assoc.
Qed.

(** X10: the program binds a listening socket only to the integer port of
    the [connections] section, never to a port below 1024, and only after the
    encapsulation key has been written to the outbound socket and that socket
    has been closed. *)
Theorem listening_follows_the_send w p :
  p ∈ bound_ports (main w).1 →
  1024 ≤ p
  ∧ ∃ m d z ek dk host port,
      ek_sent w m d z ek dk host port ∧ listen_port m (PyInt p)
      ∧ before (EvSendAll ek) (EvClose BobSocket) (main w).1
      ∧ before (EvClose BobSocket) (EvBind p) (main w).1.
Proof.
  runs_of w; intros Hin;
    try (observers; simpl in Hin; by apply elem_of_nil in Hin).
  all: unfold bound_ports in Hin; rewrite !observe_app in Hin;
    rewrite bound_ports_waiting in Hin; simpl in Hin;
    rewrite ?app_nil_r in Hin;
    match goal with
    | H : wait_for_bob_response _ _ = _ |- _ =>
        destruct (wait_bound _ _ _ _ _ H Hin) as [Hp [l ->]]
    end;
    match goal with
    | H : Py.lt_int _ _ = Ret false |- _ =>
        destruct (port_checked _ _ Hp H) as [-> Hge]
    end;
    (split; [done|]);
    exists m, d, z, ek, dk, host, port; (split; [done|]); (split; [done|]).
  - rewrite <- (app_nil_r (EvBind p :: l)). apply bound_after_send.
  - apply bound_after_send.
  - apply bound_after_send.
Qed.

(** X11: the listen port is not checked to be an integer.  A [port] that is
    neither an [int] nor a [bool], and not a float below 1024 (a string, a
    null, a list, a float such as 5000.0), ends the program on a TypeError,
    raised by the comparison with 1024 or by [bind]: this after the key has
    been sent, with no line at ERROR and without a socket being bound. *)
Theorem listen_port_must_be_an_integer w m d z ek dk host port v :
  ek_sent w m d z ek dk host port → listen_port m v →
  (∀ n, v ≠ PyInt n) → (∀ b, v ≠ PyBool b) →
  Py.lt_int v 1024 ≠ Ret true →
  (main w).2 = Raise TypeError ∧ error_logs (main w).1 = []
  ∧ socket_writes (main w).1 = [ek] ∧ bound_ports (main w).1 = []
  ∧ accept_calls (main w).1 = [].
Proof.
  intros Hs Hl Hint Hbool Hlow.
  destruct (Py.lt_int v 1024) as [[]|e|] eqn:Hlt;
    [done| |
     |by destruct (lt_int_not_block _ _ Hlt)].
  - assert (Py.as_port v = Raise TypeError) as Hp.
    { destruct v as [|b|n| | | |]; try done;
        [by destruct (Hbool b)|by destruct (Hint n)]. }
    destruct (wait_for_bob_response w v) as [trw o] eqn:Hwait.
    pose proof (wait_run w v) as Hrun. rewrite Hwait in Hrun.
    simpl in Hrun. destruct Hrun; try congruence.
    assert (e = TypeError) as -> by congruence.
    rewrite (main_receive_stops w m d z ek dk host port v _ _ (Raise TypeError)
               Hs Hl Hlt Hwait (stops_raise _)).
    done.
  - assert (e = TypeError) as ->.
    { destruct v; simpl in Hlt; congruence. }
    rewrite (run_main w _ _
               (run_port_not_a_number w m d z ek dk host port v TypeError
                  Hs Hl Hlt)).
    done.
Qed.

(** X12: a [connections] value that is true under [if connections:] but is
    no object (a non-empty list or string, a number) makes
    [connections.get] raise AttributeError after the key has been sent;
    nothing catches it and no error is logged. *)
Theorem listen_section_must_be_an_object w m d z ek dk host port :
  ek_sent w m d z ek dk host port →
  Py.truthy (field m "connections") = true →
  (∀ c, field m "connections" ≠ PyDict c) →
  (main w).2 = Raise AttributeError ∧ error_logs (main w).1 = []
  ∧ socket_writes (main w).1 = [ek] ∧ bound_ports (main w).1 = []
  ∧ last (main w).1 = Some (EvClose BobSocket).
Proof.
  intros Hs Ht Hc.
  rewrite (run_main w _ _
             (run_connections_not_a_dict w m d z ek dk host port Hs Ht Hc)).
  done.
Qed.

(** X13: the length of what was received is never checked.  When the peer
    closes after fewer than 768 bytes, those bytes, also none at all, are
    handed to Decaps as the ciphertext, nothing is logged at ERROR, and the
    program returns 0 if Decaps returns. *)
Theorem short_ciphertext_reaches_decaps w m d z ek dk host port p c :
  ek_sent w m d z ek dk host port → listen_port m (PyInt p) → 1024 ≤ p →
  net_bind w p = Ret tt → net_accept w p = Ret c →
  ending c = PeerCloses → (length (stream c) < 768)%nat →
  decaps_calls (main w).1 = [(dk, stream c)]
  ∧ error_logs (main w).1 = []
  ∧ ∀ k, kem_Decaps w dk (stream c) = Ret k → (main w).2 = Ret 0.
Proof.
  intros Hs Hl Hp Hb Ha He Hlen.
  assert ((wait_for_bob_response w (PyInt p)).2 = Ret (stream c)) as Hret.
  { rewrite (wait_outcome w p c Hb Ha), recv_loop_outcome by (simpl; lia).
    unfold expected_read. rewrite He.
    rewrite decide_False by (rewrite cipher_text_size; simpl; lia). done. }
  destruct (wait_for_bob_response w (PyInt p)) as [trw o] eqn:Hwait.
  simpl in Hret. subst o.
  rewrite (main_received w m d z ek dk host port (PyInt p) trw (stream c)
             Hs Hl (port_accepted p Hp) Hwait).
  destruct (kem_Decaps w dk (stream c)) as [k|e|];
    observers; receiver; done.
Qed.

(** X14: [main] returns 0 only after the whole handshake: the key was
    generated and sent, a socket was bound to the configured port, not below
    1024, one peer was accepted, and the secret in the last log line is what
    Decaps made of the decapsulation key and the first 768 bytes that peer
    sent (all of them, if it sent fewer and closed). *)
Theorem return_zero_means_the_handshake_completed w :
  (main w).2 = Ret 0 →
  ∃ m d z ek dk host port p c k,
    ek_sent w m d z ek dk host port ∧ listen_port m (PyInt p) ∧ 1024 ≤ p
    ∧ net_bind w p = Ret tt ∧ net_accept w p = Ret c
    ∧ kem_Decaps w dk (take 768 (stream c)) = Ret k
    ∧ socket_writes (main w).1 = [ek] ∧ bound_ports (main w).1 = [p]
    ∧ decaps_calls (main w).1 = [(dk, take 768 (stream c))]
    ∧ last (main w).1 = Some (EvLog DEBUG (MsgShouldBe k)).
Proof.
  rewrite <- cipher_text_size.
  runs_of w; intros Hret;
    repeat match goal with
      | H : stops _ _ |- _ => destruct H
      end;
    try discriminate Hret.
  match goal with
  | H : wait_for_bob_response _ _ = _ |- _ =>
      pose proof (wait_run w v) as Hrun; rewrite H in Hrun; simpl in Hrun
  end.
  inversion Hrun as [| | | | | |p c reads o Hp Hb Ha Hloop Hend]; subst.
  match goal with
  | H : Py.lt_int _ _ = Ret false |- _ =>
      destruct (port_checked _ _ Hp H) as [-> Hge]
  end.
  assert (ct = take CIPHER_TEXT_SIZE_IN_BYTES (stream c)) as ->.
  { pose proof (recv_loop_outcome c [] ltac:(simpl; lia)) as Hout.
    rewrite Hloop in Hout. simpl in Hout. unfold expected_read in Hout.
    simpl in Hout. case_decide; [congruence|].
    destruct (ending c); [|done..]. injection Hout as ->.
    symmetry. apply take_ge. lia. }
  exists m, d, z, ek, dk, host, port, p, c, k.
  repeat (split; [done|]).
  pose proof (recv_loop_unobserved bound_port c [] (λ _, eq_refl)) as Hq.
  pose proof (recv_loop_unobserved socket_write c [] (λ _, eq_refl)) as Hw.
  pose proof (recv_loop_unobserved decaps_call c [] (λ _, eq_refl)) as Hd.
  rewrite Hloop in Hq, Hw, Hd. simpl in Hq, Hw, Hd.
  unfold socket_writes, bound_ports, decaps_calls.
  rewrite !observe_app, Hq, Hw, Hd.
  split; [done|]. split; [done|]. split; [done|].
  by rewrite !last_app.
Qed.

(** X15: the port of the peer address is not checked either.  When [int]
    raises on what follows the first colon, the exception ends the program
    right after KeyGen: no error is logged and no connection is opened. *)
Theorem unparsable_peer_port_is_not_handled
    w m d z ek dk a host p rest e :
  key_generated w m d z ek dk → args_address w = Some a →
  Py.split ":" a = host :: p :: rest → py_int w p = Raise e →
  (main w).2 = Raise e ∧ error_logs (main w).1 = []
  ∧ connections_opened (main w).1 = []
  ∧ last (main w).1 = Some (EvKeyGen d z).
Proof.
  intros Hk Ha Hsplit Hint.
  assert (run w (trace_keygen w d z) (Raise e)) as Hrun.
  { eapply run_port_not_parsed; [done..|]. rewrite Hint. constructor. }
  rewrite (run_main w _ _ Hrun). done.
Qed.

(** X16: no call has a timeout.  Once the key is sent, the program waits
    for ever if nobody connects to the listening socket, or if the peer that
    connected stays silent after fewer than 768 bytes: it never exits, it
    never calls Decaps, and the listening socket stays open. *)
Theorem handshake_waits_for_ever w m d z ek dk host port p :
  ek_sent w m d z ek dk host port → listen_port m (PyInt p) → 1024 ≤ p →
  net_bind w p = Ret tt →
  net_accept w p = Block
  ∨ (∃ c, net_accept w p = Ret c ∧ ending c = PeerSilent
          ∧ (length (stream c) < 768)%nat) →
  (main w).2 = Block ∧ exit_status (main w).2 = None
  ∧ socket_writes (main w).1 = [ek] ∧ bound_ports (main w).1 = [p]
  ∧ decaps_calls (main w).1 = []
  ∧ sockets_closed (main w).1 = [BobSocket].
Proof.
  intros Hs Hl Hp Hb Hpeer.
  destruct (wait_for_bob_response w (PyInt p)) as [trw o] eqn:Hwait.
  pose proof (wait_run w (PyInt p)) as Hrun. rewrite Hwait in Hrun.
  simpl in Hrun.
  assert (o = Block ∧ bound_ports trw = [p] ∧ sockets_closed trw = [])
    as (-> & Hbound & Hclosed).
  { destruct Hpeer as [Ha|(c & Ha & He & Hlen)].
    - destruct Hrun; simplify_eq/=; try congruence.
      by repeat split.
    - pose proof (recv_loop_outcome c [] ltac:(simpl; lia)) as Hout.
      unfold expected_read in Hout. rewrite He in Hout. simpl in Hout.
      rewrite decide_False in Hout by (rewrite cipher_text_size; lia).
      pose proof (recv_loop_unobserved bound_port c [] (λ _, eq_refl)) as Hq.
      pose proof (recv_loop_unobserved socket_closed c [] (λ _, eq_refl))
        as Hq'.
      destruct Hrun; simplify_eq/=; try congruence;
        match goal with
        | H : net_accept _ _ = Ret ?c' |- _ =>
            assert (c' = c) as -> by congruence
        end;
        match goal with
        | H : recv_loop _ _ = _ |- _ =>
            rewrite H in Hout, Hq, Hq'; simpl in Hout, Hq, Hq'
        end; try congruence.
      unfold bound_ports, sockets_closed. simpl. by rewrite Hq, Hq'. }
  rewrite (main_receive_stops w m d z ek dk host port (PyInt p) _ _ Block
             Hs Hl (port_accepted p Hp) Hwait stops_block).
  unfold bound_ports, sockets_closed in *.
  observers; receiver. rewrite ?observe_app, ?Hbound, ?Hclosed. done.
Qed.

(** X17: a listening port that cannot be bound (it is in use, say) is not
    handled: the exception of [bind] ends the program after the key has been
    sent, with the listening socket closed, nothing accepted and no line at
    ERROR. *)
Theorem failed_bind_is_not_handled w m d z ek dk host port p e :
  ek_sent w m d z ek dk host port → listen_port m (PyInt p) → 1024 ≤ p →
  net_bind w p = Raise e →
  (main w).2 = Raise e ∧ error_logs (main w).1 = []
  ∧ socket_writes (main w).1 = [ek] ∧ accept_calls (main w).1 = []
  ∧ last (main w).1 = Some (EvClose AliceSocket).
Proof.
  intros Hs Hl Hp Hb.
  destruct (wait_for_bob_response w (PyInt p)) as [trw o] eqn:Hwait.
  pose proof (wait_run w (PyInt p)) as Hrun. rewrite Hwait in Hrun.
  simpl in Hrun.
  assert (trw = [EvBind p; EvClose AliceSocket] ∧ o = Raise e) as [-> ->].
  { destruct Hrun; simplify_eq/=; try congruence.
    split; [done|congruence]. }
  rewrite (main_receive_stops w m d z ek dk host port (PyInt p) _ _ (Raise e)
             Hs Hl (port_accepted p Hp) Hwait (stops_raise _)).
  done.
Qed.


(** X19: a line is logged at ERROR exactly in the runs in which [main]
    returns 1.  A run that ends on an exception, or that never ends, logs
    none; a run that returns 0 logs none. *)
Theorem error_is_logged_exactly_when_main_returns_one w :
  error_logs (main w).1 ≠ [] ↔ (main w).2 = Ret 1.
Proof.
  runs_of w; observers; receiver; simpl;
    repeat match goal with
      | H : stops _ _ |- _ => destruct H
      end;
    split; try done; try (intros H; by destruct H).
Qed.

(** ** The further properties at work on concrete runs *)

Lemma edge_ek_sent bind accept :
  ek_sent (Edge.on_network (Ret tt) (Ret tt) bind accept Demo.good)
    (Demo.record "0011" "2233" (PyDict (Demo.section 5000)))
    Demo.d Demo.z Demo.ek Demo.dk "127.0.0.1" 6000.
Proof. demo. Defined.

Lemma demo_listen_port :
  listen_port (Demo.record "0011" "2233" (PyDict (Demo.section 5000)))
    (PyInt 5000).
Proof. exists (Demo.section 5000). by vm_compute. Defined.

Lemma incomplete_read_witness :
  (wait_for_bob_response Edge.reset (PyInt 5000)).2
  = Raise ConnectionResetError
  ∧ (wait_for_bob_response Edge.silent (PyInt 5000)).2 = Block.
Proof.
  split.
  - apply (incomplete_read_raises_or_blocks Edge.reset 5000 Edge.reset_reply);
      [reflexivity | reflexivity | vm_compute; lia | reflexivity].
  - apply (incomplete_read_raises_or_blocks Edge.silent 5000
             Edge.silent_reply);
      [reflexivity | reflexivity | vm_compute; lia | reflexivity].
Defined.

Lemma segmentation_witness :
  (wait_for_bob_response Demo.short (PyInt 5000)).2
  = (wait_for_bob_response Edge.joined (PyInt 5000)).2.
Proof.
  apply (read_ignores_segmentation Demo.short Edge.joined 5000 5000
           Demo.short_reply Edge.joined_reply); reflexivity.
Defined.

Lemma other_load_errors_witness :
  (main Edge.not_json).2 = Raise (OtherError "JSONDecodeError")
  ∧ exit_status (main Edge.not_json).2 = Some 1
  ∧ error_logs (main Edge.not_json).1 = []
  ∧ last (main Edge.not_json).1 = Some (EvOpenFile "alice_params.json").
Proof.
  apply (other_load_errors_are_not_handled Edge.not_json
           (OtherError "JSONDecodeError")); [reflexivity | discriminate].
Defined.

Lemma configuration_witness :
  (main Edge.json_list).2 = Raise AttributeError
  ∧ error_logs (main Edge.json_list).1 = []
  ∧ keygen_calls (main Edge.json_list).1 = []
  ∧ last (main Edge.json_list).1 = Some EvNewMLKEM.
Proof.
  apply (configuration_must_be_an_object Edge.json_list
           (PyList [PyStr "0011"; PyStr "2233"])); [reflexivity | discriminate].
Defined.

Lemma keygen_seeds_witness :
  (∃ m, params_loaded Demo.good m ∧ seeds_decoded m Demo.d Demo.z)
  ∧ keygen_calls (main Demo.good).1 = [(Demo.d, Demo.z)]
  ∧ ∃ l, (main Demo.good).1
         = trace_params Demo.good
           ++ EvLog WARNING MsgFixedKeyPair :: EvKeyGen Demo.d Demo.z :: l.
Proof.
  apply (keygen_gets_the_decoded_seeds Demo.good Demo.d Demo.z).
  vm_compute. apply list_elem_of_here.
Defined.

Lemma listening_witness :
  1024 ≤ 5000
  ∧ ∃ m d z ek dk host port,
      ek_sent Demo.good m d z ek dk host port ∧ listen_port m (PyInt 5000)
      ∧ before (EvSendAll ek) (EvClose BobSocket) (main Demo.good).1
      ∧ before (EvClose BobSocket) (EvBind 5000) (main Demo.good).1.
Proof.
  apply (listening_follows_the_send Demo.good 5000).
  vm_compute. apply list_elem_of_here.
Defined.

Lemma listen_port_witness :
  (main Edge.port_as_string).2 = Raise TypeError
  ∧ error_logs (main Edge.port_as_string).1 = []
  ∧ socket_writes (main Edge.port_as_string).1 = [Demo.ek]
  ∧ bound_ports (main Edge.port_as_string).1 = []
  ∧ accept_calls (main Edge.port_as_string).1 = [].
Proof.
  apply (listen_port_must_be_an_integer Edge.port_as_string
           _ _ _ _ _ _ _ (PyStr "5000") (demo_ek_sent _));
    [exists Edge.string_port; by vm_compute | done..].
Defined.

Lemma listen_section_witness :
  (main Edge.section_as_list).2 = Raise AttributeError
  ∧ error_logs (main Edge.section_as_list).1 = []
  ∧ socket_writes (main Edge.section_as_list).1 = [Demo.ek]
  ∧ bound_ports (main Edge.section_as_list).1 = []
  ∧ last (main Edge.section_as_list).1 = Some (EvClose BobSocket).
Proof.
  apply (listen_section_must_be_an_object Edge.section_as_list
           _ _ _ _ _ _ _ (demo_ek_sent _)); [reflexivity|].
  intros c Hc. vm_compute in Hc. discriminate Hc.
Defined.

Lemma short_ciphertext_witness :
  decaps_calls (main Demo.short).1
  = [(Demo.dk, [Byte.x01; Byte.x02; Byte.x03])]
  ∧ error_logs (main Demo.short).1 = []
  ∧ ∀ k,
      kem_Decaps Demo.short Demo.dk [Byte.x01; Byte.x02; Byte.x03] = Ret k →
      (main Demo.short).2 = Ret 0.
Proof.
  apply (short_ciphertext_reaches_decaps Demo.short
           (Demo.record "0011" "2233" (PyDict (Demo.section 5000)))
           Demo.d Demo.z Demo.ek Demo.dk "127.0.0.1" 6000 5000
           Demo.short_reply);
    [demo | exact demo_listen_port | lia | reflexivity | reflexivity
    | reflexivity | vm_compute; lia].
Defined.

Lemma return_zero_witness :
  ∃ m d z ek dk host port p c k,
    ek_sent Demo.good m d z ek dk host port ∧ listen_port m (PyInt p)
    ∧ 1024 ≤ p
    ∧ net_bind Demo.good p = Ret tt ∧ net_accept Demo.good p = Ret c
    ∧ kem_Decaps Demo.good dk (take 768 (stream c)) = Ret k
    ∧ socket_writes (main Demo.good).1 = [ek]
    ∧ bound_ports (main Demo.good).1 = [p]
    ∧ decaps_calls (main Demo.good).1 = [(dk, take 768 (stream c))]
    ∧ last (main Demo.good).1 = Some (EvLog DEBUG (MsgShouldBe k)).
Proof.
  apply (return_zero_means_the_handshake_completed Demo.good).
  by vm_compute.
Defined.

Lemma unparsable_peer_port_witness :
  (main Edge.named_port).2 = Raise ValueError
  ∧ error_logs (main Edge.named_port).1 = []
  ∧ connections_opened (main Edge.named_port).1 = []
  ∧ last (main Edge.named_port).1 = Some (EvKeyGen Demo.d Demo.z).
Proof.
  apply (unparsable_peer_port_is_not_handled Edge.named_port
           (Demo.record "0011" "2233" (PyDict (Demo.section 5000)))
           Demo.d Demo.z Demo.ek Demo.dk "127.0.0.1:kem" "127.0.0.1" "kem" []);
    [demo | reflexivity..].
Defined.

Lemma waits_for_ever_witness :
  (main Edge.nobody_calls).2 = Block
  ∧ exit_status (main Edge.nobody_calls).2 = None
  ∧ socket_writes (main Edge.nobody_calls).1 = [Demo.ek]
  ∧ bound_ports (main Edge.nobody_calls).1 = [5000]
  ∧ decaps_calls (main Edge.nobody_calls).1 = []
  ∧ sockets_closed (main Edge.nobody_calls).1 = [BobSocket].
Proof.
  apply (handshake_waits_for_ever Edge.nobody_calls
           _ _ _ _ _ _ _ 5000 (edge_ek_sent _ _) demo_listen_port);
    [lia | reflexivity | left; reflexivity].
Defined.

Lemma failed_bind_witness :
  (main Edge.port_in_use).2 = Raise (OtherError "OSError")
  ∧ error_logs (main Edge.port_in_use).1 = []
  ∧ socket_writes (main Edge.port_in_use).1 = [Demo.ek]
  ∧ accept_calls (main Edge.port_in_use).1 = []
  ∧ last (main Edge.port_in_use).1 = Some (EvClose AliceSocket).
Proof.
  apply (failed_bind_is_not_handled Edge.port_in_use
           _ _ _ _ _ _ _ 5000 (OtherError "OSError")
           (edge_ek_sent _ _) demo_listen_port);
    [lia | reflexivity].
Defined.

